(** * Recipe catalog backend: models/Recipe schema and routes/recipes.js

    A shallow embedding of the recipe routes (listing, popular listing,
    create, rate, comment, favorite) and of the [averageRating] virtual of
    the Recipe schema.

    Conventions of the embedding:
    - an ObjectId is its canonical 24-character lowercase hex string;
    - the recipes collection is a list of documents in natural order, the
      users collection a [gmap] keyed by user id;
    - JavaScript numbers used as integers (counts, pages, parsed query
      values, rating values) are [Z]; stored numeric recipe fields that
      the validator accepts as arbitrary numerals are [Q];
    - a route returns its HTTP response together with the new database;
    - a JavaScript string is a sequence of UTF-16 code units; the strings
      here hold code units below 256 (Latin-1 text), one [ascii] each. *)

From Stdlib Require Import ZArith QArith Qabs List String Ascii Bool Lia.
From Stdlib Require Import Sorted Permutation.
From Stdlib Require Import Floats.SpecFloat.
From stdpp Require Import base gmap strings.
Import ListNotations.

Open Scope Z_scope.

(* ------------------------------------------------------------------ *)
(** ** Documents *)

Record ingredient := mkIngredient {
  ing_name : string;
  ing_amount : string
}.

Record rating := mkRating {
  rating_user : string;
  rating_value : Z;
  rating_createdAt : Z
}.

Record instruction := mkInstruction {
  step : Q;
  instr_description : string
}.

Record comment := mkComment {
  comment_user : string;
  comment_text : string;
  comment_createdAt : Z
}.

(** The Recipe schema (the fields the routes read or write). *)
Record recipe := mkRecipe {
  r_id : string;
  title : string;
  description : string;
  image : string;
  cuisine : string;
  diet : string;
  difficulty : string;
  ingredients : list ingredient;
  instructions : list instruction;
  prepTime : Q;
  cookTime : Q;
  servings : Q;
  calories : option Q;
  author : string;
  ratings : list rating;
  comments : list comment;
  tags : list string;
  createdAt : Z
}.

Record user := mkUser {
  u_id : string;
  favoriteRecipes : list string
}.

Record db := mkDb {
  recipes : list recipe;
  users : gmap string user
}.

(** HTTP responses of the routes, with the JSON message where the route
    sends a fixed one. *)
Inductive response :=
  | Ok200 (msg : string)
  | Created201
  | BadRequest400 (msg : string)
  | NotFound404 (msg : string)
  | ServerError500.

(* ------------------------------------------------------------------ *)
(** ** JavaScript helpers *)

(** JavaScript truthiness of a query value: [undefined] and [""] are
    falsy, every other string is truthy. *)
Definition truthy (o : option string) : option string :=
  match o with
  | Some s => if String.eqb s "" then None else Some s
  | None => None
  end.

(** JavaScript white space and line terminators below 256: tab, line
    feed, vertical tab, form feed, carriage return, space and no-break
    space. *)
Definition is_js_space (c : ascii) : bool :=
  match nat_of_ascii c with
  | 9 | 10 | 11 | 12 | 13 | 32 | 160 => true
  | _ => false
  end%nat.

Fixpoint skip_spaces (s : string) : string :=
  match s with
  | String c s' => if is_js_space c then skip_spaces s' else s
  | EmptyString => EmptyString
  end.

(** Drops the white space at the end of a string. *)
Fixpoint trim_end (s : string) : string :=
  match s with
  | EmptyString => EmptyString
  | String c s' =>
      let t := trim_end s' in
      if is_js_space c && String.eqb t EmptyString then EmptyString else String c t
  end.

(** [s.trim()]. *)
Definition js_trim (s : string) : string := trim_end (skip_spaces s).

Definition digit_value (c : ascii) : Z :=
  let n := Z.of_nat (nat_of_ascii c) in
  if (48 <=? n) && (n <=? 57) then n - 48
  else if (97 <=? n) && (n <=? 122) then n - 87
  else if (65 <=? n) && (n <=? 90) then n - 55
  else 99.

(** Digits of [radix] read from the front; stops at the first
    character that is not one. [None] when no digit was read. *)
Fixpoint read_digits (radix : Z) (acc : option Z) (s : string) : option Z :=
  match s with
  | EmptyString => acc
  | String c s' =>
      let d := digit_value c in
      if d <? radix then
        read_digits radix (Some (match acc with Some a => a | None => 0 end * radix + d)) s'
      else acc
  end.

(** [parseInt(s)] without a radix argument: leading white space, an
    optional sign, an optional [0x]/[0X] prefix selecting base 16, then
    the longest run of digits. [None] is [NaN]. JavaScript returns the
    double nearest to that integer: the value here is exact as long as
    its magnitude is at most 2^53, and statements about parsed values
    keep to that range (beyond it JavaScript rounds, and from about 309
    digits on the result is [Infinity]). *)
Definition parseInt (s : string) : option Z :=
  let s := skip_spaces s in
  let '(sign, s) :=
    match s with
    | String "-"%char r => (-1, r)
    | String "+"%char r => (1, r)
    | _ => (1, s)
    end in
  let '(radix, s) :=
    match s with
    | String "0"%char (String x r) =>
        if (Ascii.eqb x "x"%char || Ascii.eqb x "X"%char) then (16, r) else (10, s)
    | _ => (10, s)
    end in
  option_map (Z.mul sign) (read_digits radix None s).

(** [parseInt(x) || d]: [NaN] and [0] are falsy. *)
Definition parse_or (o : option string) (d : Z) : Z :=
  match o with
  | Some s =>
      match parseInt s with
      | Some n => if n =? 0 then d else n
      | None => d
      end
  | None => d
  end.

(** [s.split(',')]. *)
Fixpoint split_comma_aux (cur : string) (s : string) : list string :=
  match s with
  | EmptyString => [cur]
  | String c s' =>
      if Ascii.eqb c ","%char then cur :: split_comma_aux EmptyString s'
      else split_comma_aux (cur ++ String c EmptyString)%string s'
  end.

Definition split_comma (s : string) : list string := split_comma_aux EmptyString s.

(* ------------------------------------------------------------------ *)
(** ** GET / : filter object *)

(** The query string of [GET /]; [None] is an absent parameter. Each
    parameter given once, as a plain [name=value] pair, arrives as a
    string: that is the query modelled here. A repeated parameter
    arrives as an array and a bracketed one ([name[k]=v]) as an object;
    such queries are outside the model. *)
Record query := mkQuery {
  q_page : option string;
  q_limit : option string;
  q_cuisine : option string;
  q_diet : option string;
  q_difficulty : option string;
  q_search : option string;
  q_maxPrepTime : option string;
  q_maxCookTime : option string;
  q_maxCalories : option string;
  q_ingredients : option string
}.

Definition empty_query : query :=
  mkQuery None None None None None None None None None None.

(** The filter object built by the route. Each field is a key of the
    JavaScript object; [None] when the key is not set. A time or calorie
    bound is [{ $lte: parseInt(..) }], whose operand may be [NaN]
    (inner [None]). *)
Record filter_obj := mkFilter {
  f_cuisine : option string;
  f_diet : option string;
  f_difficulty : option string;
  f_text : option string;
  f_prepTime : option (option Z);
  f_cookTime : option (option Z);
  f_calories : option (option Z);
  f_ingredients : option (list string)
}.

Definition build_filter (q : query) : filter_obj := {|
  f_cuisine := truthy (q_cuisine q);
  f_diet := truthy (q_diet q);
  f_difficulty := truthy (q_difficulty q);
  f_text := truthy (q_search q);
  f_prepTime := option_map parseInt (truthy (q_maxPrepTime q));
  f_cookTime := option_map parseInt (truthy (q_maxCookTime q));
  f_calories := option_map parseInt (truthy (q_maxCalories q));
  f_ingredients := option_map split_comma (truthy (q_ingredients q))
|}.

(* ------------------------------------------------------------------ *)
(** ** MongoDB query semantics used by the routes *)

(** Equality on a string field. *)
Definition eq_cond (c : option string) (v : string) : bool :=
  match c with
  | Some s => String.eqb v s
  | None => true
  end.

(** [{ $lte: x }] on a numeric field holding [v] (a field that is absent
    never matches). A [NaN] bound would only match [NaN], which the
    validated documents never hold; Mongoose rejects such a bound before
    the query reaches the store (see [castable]). *)
Definition lte_cond (c : option (option Z)) (v : option Q) : bool :=
  match c with
  | None => true
  | Some None => false
  | Some (Some x) =>
      match v with
      | Some v => Qle_bool v (inject_Z x)
      | None => false
      end
  end.

(** [{ 'ingredients.name': { $in: names } }]: some ingredient has one of
    the names. *)
Definition in_cond (c : option (list string)) (ings : list ingredient) : bool :=
  match c with
  | Some names =>
      existsb (fun i => existsb (String.eqb (ing_name i)) names) ings
  | None => true
  end.

Section Matching.

(** The text index search [{ $text: { $search: s } }] over title,
    description and ingredient names (stemming, stop words) belongs to
    the store; it is a parameter of the matching. *)
Variable text_match : string -> recipe -> bool.

Definition text_cond (c : option string) (r : recipe) : bool :=
  match c with
  | Some s => text_match s r
  | None => true
  end.

(** A document matches a filter object when every key's condition holds
    (the keys of a MongoDB filter are combined by AND). Mongoose casts
    the filter first and runs the schema's setters on the values of
    paths that have them: the [trim] of [cuisine] and of
    [ingredients.name] applies to the query values (each element of an
    [$in] list). *)
Definition matches (f : filter_obj) (r : recipe) : bool :=
  eq_cond (option_map js_trim (f_cuisine f)) (cuisine r) &&
  eq_cond (f_diet f) (diet r) &&
  eq_cond (f_difficulty f) (difficulty r) &&
  text_cond (f_text f) r &&
  lte_cond (f_prepTime f) (Some (prepTime r)) &&
  lte_cond (f_cookTime f) (Some (cookTime r)) &&
  lte_cond (f_calories f) (calories r) &&
  in_cond (option_map (map js_trim) (f_ingredients f)) (ingredients r).

End Matching.

(** Mongoose casts a filter before running it: casting [NaN] to a Number
    fails ([castNumber] asserts [!isNaN(val)]), so the query is rejected
    with a CastError. *)
Definition bound_castable (c : option (option Z)) : bool :=
  match c with
  | Some None => false
  | _ => true
  end.

Definition castable (f : filter_obj) : bool :=
  bound_castable (f_prepTime f) && bound_castable (f_cookTime f) &&
  bound_castable (f_calories f).

(* ------------------------------------------------------------------ *)
(** ** Sorting, skip and limit of a cursor *)

Section Sort.
Context {A : Type}.

(** [before y x]: [y] sorts strictly ahead of [x]. Insertion puts [x]
    ahead of every element it does not sort strictly behind, so elements
    with equal keys keep their natural order. *)
Variable before : A -> A -> bool.

Fixpoint insert_sorted (x : A) (l : list A) : list A :=
  match l with
  | [] => [x]
  | y :: l' => if before y x then y :: insert_sorted x l' else x :: l
  end.

Fixpoint sort_by (l : list A) : list A :=
  match l with
  | [] => []
  | x :: l' => insert_sorted x (sort_by l')
  end.

End Sort.

(** [.sort({ createdAt: -1 })]. *)
Definition newer (a b : recipe) : bool := createdAt b <? createdAt a.

(** [.skip(n)]: a negative skip is refused by the server. *)
Definition cursor_skip {A} (n : Z) (l : list A) : option (list A) :=
  if n <? 0 then None else Some (skipn (Z.to_nat n) l).

(** [.limit(n)]: a negative limit returns at most [|n|] documents (one
    batch); [0] means no limit (never reached here). *)
Definition cursor_limit {A} (n : Z) (l : list A) : list A :=
  if n =? 0 then l else firstn (Z.to_nat (Z.abs n)) l.

(** [Math.ceil(a / b)] for integers [a >= 0] and [b <> 0]. *)
Definition ceil_div (a b : Z) : Z := - ((- a) / b).

(* ------------------------------------------------------------------ *)
(** ** GET / *)

Record pagination := mkPagination {
  currentPage : Z;
  totalPages : Z;
  totalRecipes : Z;
  hasNext : bool;
  hasPrev : bool
}.

Inductive list_result :=
  | Listing (items : list recipe) (p : pagination)
  | ListingError500.

Definition list_recipes (text_match : string -> recipe -> bool)
    (store : list recipe) (q : query) : list_result :=
  let page := parse_or (q_page q) 1 in
  let limit := parse_or (q_limit q) 12 in
  let skip := (page - 1) * limit in
  let f := build_filter q in
  if negb (castable f) then ListingError500 else
  let matched := List.filter (matches text_match f) store in
  match cursor_skip skip (sort_by newer matched) with
  | None => ListingError500
  | Some rest =>
      let items := cursor_limit limit rest in
      let total := Z.of_nat (length matched) in
      Listing items {|
        currentPage := page;
        totalPages := ceil_div total limit;
        totalRecipes := total;
        hasNext := page <? ceil_div total limit;
        hasPrev := page >? 1
      |}
  end.

(* ------------------------------------------------------------------ *)
(** ** GET /popular *)

(** Sorting on the array path ['ratings.rating'] descending uses the
    largest element of the array as the key; a document whose array is
    empty sorts after every number. *)
Definition max_rating (r : recipe) : option Z :=
  match ratings r with
  | [] => None
  | x :: xs => Some (fold_left Z.max (map rating_value xs) (rating_value x))
  end.

Definition key_gt (a b : option Z) : bool :=
  match a, b with
  | Some x, Some y => y <? x
  | Some _, None => true
  | None, _ => false
  end.

(** [.sort({ 'ratings.rating': -1, createdAt: -1 })]. *)
Definition popular_before (a b : recipe) : bool :=
  key_gt (max_rating a) (max_rating b) ||
  (negb (key_gt (max_rating b) (max_rating a)) && newer a b).

Definition popular (store : list recipe) : list recipe :=
  cursor_limit 12 (sort_by popular_before store).

(* ------------------------------------------------------------------ *)
(** ** The averageRating virtual *)

(** JavaScript numbers are IEEE 754 binary64 values. *)
Definition prec : Z := 53.
Definition emax : Z := 1024.

Definition js_of_Z (z : Z) : spec_float := binary_normalize prec emax z 0 false.
Definition js_add (x y : spec_float) : spec_float := SFadd prec emax x y.
Definition js_div (x y : spec_float) : spec_float := SFdiv prec emax x y.

(** A value a getter can return. *)
Inductive js_value :=
  | JsNum (x : spec_float)
  | JsStr (s : string).

Fixpoint string_of_uint (d : Decimal.uint) : string :=
  match d with
  | Decimal.Nil => EmptyString
  | Decimal.D0 d => String "0" (string_of_uint d)
  | Decimal.D1 d => String "1" (string_of_uint d)
  | Decimal.D2 d => String "2" (string_of_uint d)
  | Decimal.D3 d => String "3" (string_of_uint d)
  | Decimal.D4 d => String "4" (string_of_uint d)
  | Decimal.D5 d => String "5" (string_of_uint d)
  | Decimal.D6 d => String "6" (string_of_uint d)
  | Decimal.D7 d => String "7" (string_of_uint d)
  | Decimal.D8 d => String "8" (string_of_uint d)
  | Decimal.D9 d => String "9" (string_of_uint d)
  end.

(** Decimal digits of [n >= 0], no leading zeroes. *)
Definition digits_of (n : Z) : string :=
  match n with
  | Zpos p => string_of_uint (Pos.to_uint p)
  | _ => "0"
  end.

(** The integer [n] closest to [10 * x] for a finite [x = m * 2^e >= 0],
    the larger one when two are equally close (step 10.b of
    [Number.prototype.toFixed] with one fraction digit). *)
Definition tenths (m : positive) (e : Z) : Z :=
  if 0 <=? e then 10 * Zpos m * 2 ^ e
  else (20 * Zpos m + 2 ^ (- e)) / (2 * 2 ^ (- e)).

(** The string of [n / 10] with one fraction digit: the digits of [n],
    padded with zeroes to two digits, with a point before the last. *)
Definition fixed1_of_tenths (n : Z) : string :=
  let ds := digits_of n in
  let ds := if (String.length ds <=? 1)%nat then String "0" ds else ds in
  let k := String.length ds in
  (substring 0 (k - 1) ds ++ "." ++ substring (k - 1) 1 ds)%string.

(** [x.toFixed(1)] for the values the virtual can divide ([|x| < 1e21]). *)
Definition toFixed1 (x : spec_float) : string :=
  match x with
  | S754_zero _ => "0.0"
  | S754_finite false m e => fixed1_of_tenths (tenths m e)
  | S754_finite true m e => ("-" ++ fixed1_of_tenths (tenths m e))%string
  | S754_infinity false => "Infinity"
  | S754_infinity true => "-Infinity"
  | S754_nan => "NaN"
  end.

(** [recipeSchema.virtual('averageRating')]:
    [if (this.ratings.length === 0) return 0;
     const sum = this.ratings.reduce((acc, rating) => acc + rating.rating, 0);
     return (sum / this.ratings.length).toFixed(1);] *)
Definition ratings_sum (rs : list rating) : spec_float :=
  fold_left (fun acc r => js_add acc (js_of_Z (rating_value r))) rs (S754_zero false).

Definition averageRating (rs : list rating) : js_value :=
  match rs with
  | [] => JsNum (S754_zero false)
  | _ => JsStr (toFixed1 (js_div (ratings_sum rs) (js_of_Z (Z.of_nat (length rs)))))
  end.


(* ------------------------------------------------------------------ *)
(** ** Looking documents up and saving them *)

Definition is_hex (c : ascii) : bool :=
  let n := nat_of_ascii c in
  (((48 <=? n) && (n <=? 57)) || ((97 <=? n) && (n <=? 102)) || ((65 <=? n) && (n <=? 70)))%nat.

Definition lower (c : ascii) : ascii :=
  let n := nat_of_ascii c in
  if ((65 <=? n) && (n <=? 90))%nat then ascii_of_nat (n + 32)%nat else c.

Fixpoint all_hex (s : string) : bool :=
  match s with
  | EmptyString => true
  | String c s' => is_hex c && all_hex s'
  end.

Fixpoint lower_string (s : string) : string :=
  match s with
  | EmptyString => EmptyString
  | String c s' => String (lower c) (lower_string s')
  end.

(** Casting a route parameter to an ObjectId: 24 hex digits; anything
    else makes the query fail with a CastError. *)
Definition cast_oid (s : string) : option string :=
  if (String.length s =? 24)%nat && all_hex s then Some (lower_string s) else None.

(** [Recipe.findById(id)] once the id has been cast. *)
Definition find_recipe (id : string) (rs : list recipe) : option recipe :=
  List.find (fun r => String.eqb (r_id r) id) rs.

(** [recipe.save()]: the document with the same [_id] is replaced. *)
Definition save_recipe (r : recipe) (d : db) : db :=
  mkDb (map (fun x => if String.eqb (r_id x) (r_id r) then r else x) (recipes d)) (users d).

Definition set_ratings (r : recipe) (rs : list rating) : recipe :=
  mkRecipe (r_id r) (title r) (description r) (image r) (cuisine r) (diet r)
    (difficulty r) (ingredients r) (instructions r) (prepTime r) (cookTime r)
    (servings r) (calories r) (author r) rs (comments r) (tags r) (createdAt r).

Definition set_comments (r : recipe) (cs : list comment) : recipe :=
  mkRecipe (r_id r) (title r) (description r) (image r) (cuisine r) (diet r)
    (difficulty r) (ingredients r) (instructions r) (prepTime r) (cookTime r)
    (servings r) (calories r) (author r) (ratings r) cs (tags r) (createdAt r).

(** [user.save()] for the user stored under [uid]. *)
Definition save_user (uid : string) (u : user) (d : db) : db :=
  mkDb (recipes d) (<[uid := u]> (users d)).

(* ------------------------------------------------------------------ *)
(** ** POST / *)

Definition diet_values : list string :=
  ["Vegetarian"; "Vegan"; "Gluten-Free"; "Keto"; "Paleo"; "Regular"].
Definition difficulty_values : list string := ["Easy"; "Medium"; "Hard"].

Definition member (s : string) (l : list string) : bool := existsb (String.eqb s) l.

(** [isNumeric()] on a number of the JSON body: express-validator tests
    [String(x)], which JavaScript writes with an exponent when [x <> 0]
    and [|x| < 1e-6] or [|x| >= 1e21]; the pattern of [isNumeric] admits
    no exponent. *)
Definition isNumeric_num (x : Q) : bool :=
  Qeq_bool x 0 ||
  (Qle_bool (Qmake 1 1000000) (Qabs x) && negb (Qle_bool (inject_Z (10 ^ 21)) (Qabs x))).

(** The express-validator chain of the route, on the raw body (no
    sanitizer: [notEmpty] only refuses the empty string). *)
Definition body_valid (b : recipe) : bool :=
  negb (String.eqb (title b) "") && negb (String.eqb (description b) "") &&
  negb (Nat.eqb (length (ingredients b)) 0) &&
  negb (Nat.eqb (length (instructions b)) 0) &&
  isNumeric_num (prepTime b) && isNumeric_num (cookTime b) && isNumeric_num (servings b) &&
  member (difficulty b) difficulty_values &&
  negb (String.eqb (cuisine b) "") &&
  member (diet b) diet_values.

(** [rating: { min: 1, max: 5 }] of a ratings entry. *)
Definition rating_in_range (x : rating) : bool :=
  (1 <=? rating_value x) && (rating_value x <=? 5).

(** [text: { required: true, maxlength: 500 }] of a comment. *)
Definition comment_valid (c : comment) : bool :=
  negb (String.eqb (comment_text c) "") && (String.length (comment_text c) <=? 500)%nat.

(** The Recipe schema validators, run by [save()] on the whole document
    (every path, not only the modified ones) with the values the setters
    left in it. *)
Definition schema_valid (b : recipe) : bool :=
  (String.length (title b) <=? 100)%nat && negb (String.eqb (title b) "") &&
  (String.length (description b) <=? 1000)%nat && negb (String.eqb (description b) "") &&
  negb (String.eqb (image b) "") &&
  forallb (fun i => negb (String.eqb (ing_name i) "") && negb (String.eqb (ing_amount i) ""))
    (ingredients b) &&
  forallb (fun i => negb (String.eqb (instr_description i) "")) (instructions b) &&
  Qle_bool 0 (prepTime b) && Qle_bool 0 (cookTime b) && Qle_bool 1 (servings b) &&
  match calories b with Some c => Qle_bool 0 c | None => true end &&
  member (difficulty b) difficulty_values &&
  negb (String.eqb (cuisine b) "") &&
  member (diet b) diet_values &&
  forallb rating_in_range (ratings b) &&
  forallb comment_valid (comments b).

(** The [trim: true] setters of the subdocument schemas. *)
Definition trim_ingredient (i : ingredient) : ingredient :=
  mkIngredient (js_trim (ing_name i)) (js_trim (ing_amount i)).

Definition trim_instruction (i : instruction) : instruction :=
  mkInstruction (step i) (js_trim (instr_description i)).

Definition trim_comment (c : comment) : comment :=
  mkComment (comment_user c) (js_trim (comment_text c)) (comment_createdAt c).

(** [new Recipe({ ...req.body, author: req.user._id })]: every field of
    the body is kept, the author is overwritten, and the [trim] setters
    run on the title, the cuisine, ingredient names and amounts,
    instruction descriptions, comment texts and tags. The numeric fields
    of a body are JSON numbers; the body carries no [_id] ([r_id] of the
    body is ignored) and [new_id] is the ObjectId Mongoose generates. *)
Definition new_recipe (body : recipe) (uid new_id : string) : recipe :=
  mkRecipe new_id (js_trim (title body)) (description body) (image body)
    (js_trim (cuisine body)) (diet body) (difficulty body)
    (map trim_ingredient (ingredients body)) (map trim_instruction (instructions body))
    (prepTime body) (cookTime body) (servings body) (calories body) uid
    (ratings body) (map trim_comment (comments body)) (map js_trim (tags body))
    (createdAt body).

(** [POST /]: the validators, then [recipe.save()]. *)
Definition create (d : db) (body : recipe) (uid new_id : string) : response * db :=
  if negb (body_valid body) then (BadRequest400 "validation", d) else
  let r := new_recipe body uid new_id in
  if negb (schema_valid r) then (ServerError500, d) else
  (Created201, mkDb (recipes d ++ [r]) (users d)).

(* ------------------------------------------------------------------ *)
(** ** POST /:id/rate *)

(** [existingRating.rating = req.body.rating] on the entry that
    [recipe.ratings.find(..)] returned: the first one of [uid]. *)
Fixpoint set_first_rating (uid : string) (v : Z) (rs : list rating) : list rating :=
  match rs with
  | [] => []
  | x :: xs =>
      if String.eqb (rating_user x) uid
      then mkRating (rating_user x) v (rating_createdAt x) :: xs
      else x :: set_first_rating uid v xs
  end.

(** [const existingRating = recipe.ratings.find(..)]; if found its value
    is overwritten, otherwise [recipe.ratings.push({ user, rating })]
    (with [createdAt: Date.now]). *)
Definition upsert_rating (uid : string) (v now : Z) (rs : list rating) : list rating :=
  match List.find (fun x => String.eqb (rating_user x) uid) rs with
  | Some _ => set_first_rating uid v rs
  | None => rs ++ [mkRating uid v now]
  end.

Definition rate (d : db) (id_param uid : string) (v now : Z) : response * db :=
  if negb ((1 <=? v) && (v <=? 5)) then (BadRequest400 "Rating must be between 1 and 5", d) else
  match cast_oid id_param with
  | None => (ServerError500, d)
  | Some id =>
      match find_recipe id (recipes d) with
      | None => (NotFound404 "Recipe not found", d)
      | Some r =>
          let r' := set_ratings r (upsert_rating uid v now (ratings r)) in
          (* save() validates the whole document *)
          if schema_valid r' then (Ok200 "Recipe rated successfully", save_recipe r' d)
          else (ServerError500, d)
      end
  end.

(* ------------------------------------------------------------------ *)
(** ** POST /:id/comment *)

Definition comment_on (d : db) (id_param uid text : string) (now : Z) : response * db :=
  if String.eqb text "" then (BadRequest400 "Comment text is required", d) else
  match cast_oid id_param with
  | None => (ServerError500, d)
  | Some id =>
      match find_recipe id (recipes d) with
      | None => (NotFound404 "Recipe not found", d)
      | Some r =>
          (* the pushed subdocument passes the trim setter of [text] *)
          let r' := set_comments r (comments r ++ [mkComment uid (js_trim text) now]) in
          (* save() validates the whole document *)
          if schema_valid r' then (Ok200 (js_trim text), save_recipe r' d)
          else (ServerError500, d)
      end
  end.

(* ------------------------------------------------------------------ *)
(** ** POST and DELETE /:id/favorite *)

Definition favorite_add (d : db) (id_param uid : string) : response * db :=
  match cast_oid id_param with
  | None => (ServerError500, d)
  | Some id =>
      match find_recipe id (recipes d) with
      | None => (NotFound404 "Recipe not found", d)
      | Some r =>
          match users d !! uid with
          | None => (ServerError500, d)
          | Some u =>
              if member (r_id r) (favoriteRecipes u)
              then (BadRequest400 "Recipe already in favorites", d)
              else (Ok200 "Recipe added to favorites",
                    save_user uid (mkUser (u_id u) (favoriteRecipes u ++ [r_id r])) d)
          end
      end
  end.

(** [user.favoriteRecipes.filter(id => id.toString() !== req.params.id)]:
    the parameter is compared as given, without a cast or a lookup of the
    recipe. *)
Definition favorite_remove (d : db) (id_param uid : string) : response * db :=
  match users d !! uid with
  | None => (ServerError500, d)
  | Some u =>
      (Ok200 "Recipe removed from favorites",
       save_user uid
         (mkUser (u_id u) (List.filter (fun x => negb (String.eqb x id_param)) (favoriteRecipes u))) d)
  end.

(* ------------------------------------------------------------------ *)
(** ** The catalog as a transition system *)

(** One request of the catalog. [body_ok] restricts the bodies a create
    request may carry; the catalog itself accepts any body that passes
    validation ([fun _ => True]). A generated id is new. *)
Inductive catalog_step (body_ok : recipe -> Prop) : db -> db -> Prop :=
  | step_create d body uid id :
      body_ok body -> ~ In id (map r_id (recipes d)) ->
      catalog_step body_ok d (snd (create d body uid id))
  | step_rate d p uid v now : catalog_step body_ok d (snd (rate d p uid v now))
  | step_comment d p uid t now : catalog_step body_ok d (snd (comment_on d p uid t now))
  | step_favorite_add d p uid : catalog_step body_ok d (snd (favorite_add d p uid))
  | step_favorite_remove d p uid : catalog_step body_ok d (snd (favorite_remove d p uid)).

Definition any_body (b : recipe) : Prop := True.

Definition unique_raters (b : recipe) : Prop := List.NoDup (map rating_user (ratings b)).

Definition reachable (body_ok : recipe -> Prop) : db -> db -> Prop :=
  rtc (catalog_step body_ok).

(** At most one rating entry per user on every recipe. *)
Definition ratings_unique (d : db) : Prop := Forall unique_raters (recipes d).

Definition empty_db : db := mkDb [] ∅.

(** Entries of [uid] in a ratings list. *)
Definition ratings_of (uid : string) (rs : list rating) : list rating :=
  List.filter (fun x => String.eqb (rating_user x) uid) rs.

(* ------------------------------------------------------------------ *)
(** ** Concrete documents *)

Definition oid1 : string := "aaaaaaaaaaaaaaaaaaaaaaaa".
Definition oid2 : string := "bbbbbbbbbbbbbbbbbbbbbbbb".
Definition alice : string := "cccccccccccccccccccccccc".

Definition sample_recipe (id cuisine : string) (prep : Q) (created : Z)
    (rs : list rating) : recipe :=
  mkRecipe id "Soup" "A soup" "soup.png" cuisine "Regular" "Easy"
    [mkIngredient "salt" "1 g"] [mkInstruction 1 "Boil"] prep 10 1 None alice
    rs [] [] created.

Definition ratings_of_values (vs : list Z) : list rating :=
  map (fun v => mkRating alice v 0) vs.

(** The recipe of [d_dup] was created with two ratings of [alice] in its
    body: nothing in [POST /] looks at the ratings a body carries. *)
Definition body_dup : recipe :=
  sample_recipe oid1 "Italian" 10 1 [mkRating alice 1 0; mkRating alice 2 0].

Definition d_dup : db := snd (create empty_db body_dup alice oid1).

(* ------------------------------------------------------------------ *)
(** ** Read routes *)

(** Outcome of a route that reads documents. *)
Inductive read_result (A : Type) :=
  | Found (x : A)
  | Missing404
  | Failed500.
Arguments Found {A} x.
Arguments Missing404 {A}.
Arguments Failed500 {A}.


(** [GET /user/:userId]: [Recipe.find({ author: req.params.userId })
    .sort({ createdAt: -1 })]; the author value is cast to an ObjectId. *)
Definition recipes_by_author (d : db) (p : string) : read_result (list recipe) :=
  match cast_oid p with
  | None => Failed500
  | Some a => Found (sort_by newer (List.filter (fun r => String.eqb (author r) a) (recipes d)))
  end.

(** [populate('favoriteRecipes')]: each id is replaced by its document,
    in array order; ids of documents that no longer exist are dropped. *)
Fixpoint populate_ids (rs : list recipe) (ids : list string) : list recipe :=
  match ids with
  | [] => []
  | i :: ids' =>
      match find_recipe i rs with
      | Some r => r :: populate_ids rs ids'
      | None => populate_ids rs ids'
      end
  end.

(** [GET /users/:id/favorites] (routes/users.js). *)
Definition user_favorites (d : db) (p : string) : read_result (list recipe) :=
  match cast_oid p with
  | None => Failed500
  | Some id =>
      match users d !! id with
      | None => Missing404
      | Some u => Found (populate_ids (recipes d) (favoriteRecipes u))
      end
  end.

(** [GET /users/:id] (routes/users.js): the user with populated
    favorites, then [Recipe.find({ author: req.params.id })
    .sort({ createdAt: -1 })]. The selected fields are display data. *)
Definition user_profile (d : db) (p : string)
    : read_result (user * list recipe * list recipe) :=
  match cast_oid p with
  | None => Failed500
  | Some id =>
      match users d !! id with
      | None => Missing404
      | Some u =>
          Found (u, populate_ids (recipes d) (favoriteRecipes u),
                 sort_by newer (List.filter (fun r => String.eqb (author r) id) (recipes d)))
      end
  end.

(** [recipeSchema.virtual('totalTime')]. *)
Definition totalTime (r : recipe) : Q := (prepTime r + cookTime r)%Q.

(* ------------------------------------------------------------------ *)
(** ** PUT /users/:id: the request the route sends to the store *)

(** The fields of the request body the route reads. *)
Record profile_body := mkProfileBody {
  b_username : option string;
  b_bio : option string;
  b_avatar : option string
}.

(** [updateData]: the fields that will be set. *)
Record update_doc := mkUpdate {
  set_username : option string;
  set_bio : option string;
  set_avatar : option string
}.

Inductive profile_request :=
  | Forbidden403
  | Invalid400
  | UpdateUser (id : string) (upd : update_doc).

(** [if (req.body.username) updateData.username = ...] and the same for
    bio and avatar. *)
Definition update_data (b : profile_body) : update_doc :=
  mkUpdate (truthy (b_username b)) (truthy (b_bio b)) (truthy (b_avatar b)).

(** [body('username').optional().isLength({ min: 3, max: 20 })] and
    [body('bio').optional().isLength({ max: 500 })]: [optional()] only
    skips an absent value. *)
Definition profile_body_valid (b : profile_body) : bool :=
  match b_username b with
  | Some s => (3 <=? String.length s)%nat && (String.length s <=? 20)%nat
  | None => true
  end &&
  match b_bio b with
  | Some s => (String.length s <=? 500)%nat
  | None => true
  end.

(** The route up to [User.findByIdAndUpdate(req.params.id, updateData)]:
    the ownership check comes first, then the validation result. *)
Definition update_profile_request (auth_uid p : string) (b : profile_body) : profile_request :=
  if negb (String.eqb auth_uid p) then Forbidden403
  else if negb (profile_body_valid b) then Invalid400
  else UpdateUser p (update_data b).

(** A response of a mutation that reports success. *)
Definition succeeded (r : response) : bool :=
  match r with
  | Ok200 _ | Created201 => true
  | _ => false
  end.

(** Users whose favorites hold no id twice. *)
Definition favorites_unique (d : db) : Prop :=
  map_Forall (fun _ u => List.NoDup (favoriteRecipes u)) (users d).

(* ================================================================== *)
(** * Properties *)

(* ------------------------------------------------------------------ *)
(** ** Lookups after a save *)

Lemma find_recipe_In (id : string) (l : list recipe) (r : recipe) :
  find_recipe id l = Some r -> In r l /\ r_id r = id.
Proof.
  unfold find_recipe. intros H. apply List.find_some in H as [Hin Heq].
  split; [exact Hin|]. now apply String.eqb_eq.
Qed.

Lemma find_recipe_save (id : string) (l : list recipe) (r r' : recipe) :
  find_recipe id l = Some r -> r_id r' = id ->
  find_recipe id (map (fun x => if String.eqb (r_id x) (r_id r') then r' else x) l) = Some r'.
Proof.
  intros Hf Hid. subst id. unfold find_recipe in *.
  induction l as [|x l IH]; simpl in *; [discriminate|].
  destruct (String.eqb (r_id x) (r_id r')) eqn:E; simpl.
  - now rewrite String.eqb_refl.
  - rewrite E. now apply IH.
Qed.

(* ------------------------------------------------------------------ *)
(** ** The rating upsert *)

Lemma ratings_of_set_first (uid : string) (v : Z) (rs : list rating) :
  (length (ratings_of uid rs) <= 1)%nat ->
  List.find (fun x => String.eqb (rating_user x) uid) rs <> None ->
  map rating_value (ratings_of uid (set_first_rating uid v rs)) = [v].
Proof.
  unfold ratings_of. induction rs as [|x xs IH]; simpl; intros Hlen Hfind.
  - congruence.
  - destruct (String.eqb (rating_user x) uid) eqn:E; simpl.
    + rewrite E. simpl in Hlen.
      destruct (List.filter (fun y => String.eqb (rating_user y) uid) xs); simpl in *.
      * reflexivity.
      * lia.
    + rewrite E. now apply IH.
Qed.

Lemma ratings_of_find_none (uid : string) (rs : list rating) :
  List.find (fun x => String.eqb (rating_user x) uid) rs = None ->
  ratings_of uid rs = [].
Proof.
  unfold ratings_of. induction rs as [|x xs IH]; simpl; [reflexivity|].
  destruct (String.eqb (rating_user x) uid); [discriminate|]. exact IH.
Qed.

Lemma upsert_rating_values (uid : string) (v now : Z) (rs : list rating) :
  (length (ratings_of uid rs) <= 1)%nat ->
  map rating_value (ratings_of uid (upsert_rating uid v now rs)) = [v].
Proof.
  intros Hlen. unfold upsert_rating.
  destruct (List.find (fun x => String.eqb (rating_user x) uid) rs) eqn:E.
  - apply ratings_of_set_first; [exact Hlen | congruence].
  - unfold ratings_of in *. rewrite List.filter_app.
    apply ratings_of_find_none in E. unfold ratings_of in E. rewrite E.
    simpl. now rewrite String.eqb_refl.
Qed.



Lemma ratings_set_ratings (r : recipe) (rs : list rating) :
  ratings (set_ratings r rs) = rs.
Proof. reflexivity. Qed.

Lemma schema_valid_set_ratings (r : recipe) (rs : list rating) :
  schema_valid r = true -> forallb rating_in_range rs = true ->
  schema_valid (set_ratings r rs) = true.
Proof.
  unfold schema_valid. intros H Hrs. repeat rewrite andb_true_iff in *. simpl. tauto.
Qed.

Lemma schema_valid_set_comments (r : recipe) (cs : list comment) :
  schema_valid r = true -> forallb comment_valid cs = true ->
  schema_valid (set_comments r cs) = true.
Proof.
  unfold schema_valid. intros H Hcs. repeat rewrite andb_true_iff in *. simpl. tauto.
Qed.

Lemma schema_valid_ratings (r : recipe) :
  schema_valid r = true -> forallb rating_in_range (ratings r) = true.
Proof. unfold schema_valid. intros H. repeat rewrite andb_true_iff in H. tauto. Qed.

Lemma schema_valid_comments (r : recipe) :
  schema_valid r = true -> forallb comment_valid (comments r) = true.
Proof. unfold schema_valid. intros H. repeat rewrite andb_true_iff in H. tauto. Qed.

Lemma set_first_rating_in_range (uid : string) (v : Z) (rs : list rating) :
  forallb rating_in_range rs = true -> 1 <= v <= 5 ->
  forallb rating_in_range (set_first_rating uid v rs) = true.
Proof.
  intros H Hv. induction rs as [|x xs IH]; simpl in *; [reflexivity|].
  apply andb_true_iff in H as [Hx Hxs].
  destruct (String.eqb (rating_user x) uid); simpl.
  - unfold rating_in_range at 1. simpl. rewrite Hxs, andb_true_r.
    apply andb_true_iff. split; apply Z.leb_le; lia.
  - rewrite Hx. now apply IH.
Qed.

Lemma upsert_rating_in_range (uid : string) (v now : Z) (rs : list rating) :
  forallb rating_in_range rs = true -> 1 <= v <= 5 ->
  forallb rating_in_range (upsert_rating uid v now rs) = true.
Proof.
  intros H Hv. unfold upsert_rating.
  destruct (List.find _ rs); [now apply set_first_rating_in_range|].
  rewrite forallb_app, H. simpl. unfold rating_in_range. simpl.
  replace ((1 <=? v) && (v <=? 5)) with true; [reflexivity|].
  symmetry. apply andb_true_iff. split; apply Z.leb_le; lia.
Qed.

Lemma rate_found (d : db) (p uid : string) (v now : Z) (id : string) (r : recipe) :
  1 <= v <= 5 -> cast_oid p = Some id -> find_recipe id (recipes d) = Some r ->
  schema_valid r = true ->
  rate d p uid v now =
    (Ok200 "Recipe rated successfully",
     save_recipe (set_ratings r (upsert_rating uid v now (ratings r))) d).
Proof.
  intros Hv Hc Hf Hs. unfold rate.
  replace ((1 <=? v) && (v <=? 5)) with true
    by (symmetry; apply andb_true_iff; split; apply Z.leb_le; lia).
  simpl. rewrite Hc, Hf.
  rewrite schema_valid_set_ratings; [reflexivity | exact Hs |].
  apply upsert_rating_in_range; [now apply schema_valid_ratings | exact Hv].
Qed.

Lemma find_after_rate (d : db) (p uid : string) (v now : Z) (id : string) (r : recipe) :
  1 <= v <= 5 -> cast_oid p = Some id -> find_recipe id (recipes d) = Some r ->
  schema_valid r = true ->
  find_recipe id (recipes (snd (rate d p uid v now))) =
    Some (set_ratings r (upsert_rating uid v now (ratings r))).
Proof.
  intros Hv Hc Hf Hs. rewrite (rate_found d p uid v now id r Hv Hc Hf Hs).
  unfold save_recipe. cbn [snd recipes].
  apply (find_recipe_save id (recipes d) r); [exact Hf|].
  apply find_recipe_In in Hf as [_ Hid]. exact Hid.
Qed.

(* ------------------------------------------------------------------ *)
(** ** C1: rating the same recipe twice *)

Lemma schema_valid_rated (r : recipe) (uid : string) (v now : Z) :
  schema_valid r = true -> 1 <= v <= 5 ->
  schema_valid (set_ratings r (upsert_rating uid v now (ratings r))) = true.
Proof.
  intros Hs Hv. apply schema_valid_set_ratings; [exact Hs|].
  apply upsert_rating_in_range; [now apply schema_valid_ratings | exact Hv].
Qed.

(** A valid recipe on which user [U] has at most one rating entry,
    rated by [U] with [v1] and then with [v2], holds exactly one entry
    of [U], with the value [v2]. *)
Theorem rate_twice_one_entry (d : db) (p uid : string) (v1 v2 now1 now2 : Z)
    (id : string) (r : recipe) :
  1 <= v1 <= 5 -> 1 <= v2 <= 5 ->
  cast_oid p = Some id -> find_recipe id (recipes d) = Some r -> schema_valid r = true ->
  (length (ratings_of uid (ratings r)) <= 1)%nat ->
  exists r2,
    find_recipe id (recipes (snd (rate (snd (rate d p uid v1 now1)) p uid v2 now2))) = Some r2 /\
    map rating_value (ratings_of uid (ratings r2)) = [v2].
Proof.
  intros Hv1 Hv2 Hc Hf Hs Hlen.
  pose proof (find_after_rate d p uid v1 now1 id r Hv1 Hc Hf Hs) as Hf1.
  eexists. split.
  - exact (find_after_rate _ p uid v2 now2 id _ Hv2 Hc Hf1 (schema_valid_rated r uid v1 now1 Hs Hv1)).
  - rewrite ratings_set_ratings. apply upsert_rating_values.
    pose proof (upsert_rating_values uid v1 now1 (ratings r) Hlen) as H1.
    apply (f_equal (@length Z)) in H1. rewrite length_map in H1.
    rewrite ratings_set_ratings. simpl in H1. lia.
Qed.

(** Witness: a recipe without ratings, rated 2 then 5 by [alice]. *)
Lemma rate_twice_one_entry_witness :
  exists r2,
    find_recipe oid1 (recipes (snd (rate (snd (rate
      (mkDb [sample_recipe oid1 "Italian" 10 1 []] ∅) oid1 alice 2 0)) oid1 alice 5 1)))
      = Some r2 /\
    map rating_value (ratings_of alice (ratings r2)) = [5].
Proof.
  apply (rate_twice_one_entry _ oid1 alice 2 5 0 1 oid1 (sample_recipe oid1 "Italian" 10 1 []));
    [lia | lia | reflexivity | reflexivity | reflexivity | simpl; lia].
Defined.

(** C1 (code_bug). [POST /] spreads the request body into the new
    document, ratings included: a recipe created with two ratings of
    [alice] in its body keeps two entries of [alice] after she rates it
    twice, since rate only overwrites her first entry. *)
Lemma rate_twice_dup_counterexample :
  reachable any_body empty_db d_dup /\
  option_map (fun r => map rating_value (ratings_of alice (ratings r)))
    (find_recipe oid1 (recipes (snd (rate (snd (rate d_dup oid1 alice 3 5)) oid1 alice 4 6))))
    = Some [4; 2].
Proof.
  split.
  - apply rtc_once. unfold d_dup. apply step_create; [exact I | simpl; tauto].
  - vm_compute. reflexivity.
Qed.

(* ------------------------------------------------------------------ *)
(** ** C2: one rating entry per user *)






Lemma favorite_add_recipes (d : db) (p uid : string) :
  recipes (snd (favorite_add d p uid)) = recipes d.
Proof.
  unfold favorite_add.
  destruct (cast_oid p) as [id|]; [|reflexivity].
  destruct (find_recipe id (recipes d)) as [r|]; [|reflexivity].
  destruct (users d !! uid) as [u|]; [|reflexivity].
  now destruct (member (r_id r) (favoriteRecipes u)).
Qed.

Lemma favorite_remove_recipes (d : db) (p uid : string) :
  recipes (snd (favorite_remove d p uid)) = recipes d.
Proof.
  unfold favorite_remove. now destruct (users d !! uid).
Qed.






(** C2 (code_bug). A create request whose body carries two ratings by
    [alice] reaches a state with two rating entries of [alice] on one
    recipe: [POST /] stores the ratings of its body unchecked. *)
Lemma ratings_unique_counterexample :
  reachable any_body empty_db d_dup /\ ~ ratings_unique d_dup.
Proof.
  split.
  - apply rtc_once. unfold d_dup. apply step_create; [exact I | simpl; tauto].
  - vm_compute. intros H. inversion H as [|x l Hx _]; subst.
    inversion Hx as [|y l' Hy _]; subst. apply Hy. left. reflexivity.
Qed.

(* ------------------------------------------------------------------ *)
(** ** C3: the averageRating virtual *)

(** The claim's reading of [averageRating]: the exact mean of the rating
    values, in tenths, rounded half up. *)
Definition mean_half_up_tenths (rs : list rating) : Z :=
  let s := fold_left Z.add (map rating_value rs) 0 in
  let n := Z.of_nat (length rs) in
  (20 * s + n) / (2 * n).

Lemma tenths_nearest (m : positive) (e : Z) :
  if 0 <=? e then tenths m e = 10 * Zpos m * 2 ^ e
  else (2 * tenths m e - 1) * 2 ^ (- e) <= 20 * Zpos m < (2 * tenths m e + 1) * 2 ^ (- e).
Proof.
  unfold tenths. destruct (0 <=? e) eqn:He; [reflexivity|].
  apply Z.leb_gt in He.
  assert (Hd : 0 < 2 ^ (- e)) by (apply Z.pow_pos_nonneg; lia).
  set (d := 2 ^ (- e)) in *.
  pose proof (Z.div_mod (20 * Zpos m + d) (2 * d) ltac:(lia)) as Hdm.
  pose proof (Z.mod_pos_bound (20 * Zpos m + d) (2 * d) ltac:(lia)) as Hb.
  set (q := (20 * Zpos m + d) / (2 * d)) in *.
  set (r := (20 * Zpos m + d) mod (2 * d)) in *.
  nia.
Qed.

(** C3 (amended). [averageRating] depends on the ratings list only. It is
    the number 0 for an empty list; otherwise it is the string
    [toFixed(1)] makes of the binary64 quotient of the sum by the
    length, i.e. the tenth nearest to that double, ties going up. For
    [5,4,3] this is "4.0"; since the double is not always the exact
    mean, a mean exactly halfway between two tenths can go down: twenty
    ratings summing to 41 (mean 2.05) give "2.0". *)
Theorem averageRating_toFixed :
  averageRating [] = JsNum (S754_zero false) /\
  (forall (r : rating) (rs : list rating),
     averageRating (r :: rs) =
       JsStr (toFixed1 (js_div (ratings_sum (r :: rs)) (js_of_Z (Z.of_nat (length (r :: rs))))))) /\
  (forall (m : positive) (e : Z),
     toFixed1 (S754_finite false m e) = fixed1_of_tenths (tenths m e) /\
     if 0 <=? e then tenths m e = 10 * Zpos m * 2 ^ e
     else (2 * tenths m e - 1) * 2 ^ (- e) <= 20 * Zpos m < (2 * tenths m e + 1) * 2 ^ (- e)) /\
  averageRating (ratings_of_values [5; 4; 3]) = JsStr "4.0" /\
  averageRating (ratings_of_values (3 :: repeat 2 19)) = JsStr "2.0".
Proof.
  split; [reflexivity|]. split; [reflexivity|]. split.
  - intros m e. split; [reflexivity|]. apply tenths_nearest.
  - split; vm_compute; reflexivity.
Qed.

(** C3 (as stated, refuted). Twenty ratings summing to 41 have mean
    2.05, which rounds half up to 2.1; the virtual returns the string
    "2.0" (and a string, not a number). *)
Lemma averageRating_half_up_counterexample :
  averageRating (ratings_of_values (3 :: repeat 2 19)) = JsStr "2.0" /\
  mean_half_up_tenths (ratings_of_values (3 :: repeat 2 19)) = 21 /\
  fixed1_of_tenths 21 = "2.1".
Proof. vm_compute. repeat split. Qed.

(* ------------------------------------------------------------------ *)
(** ** Insertion sort *)

Section SortProps.
Context {A : Type}.
Variable before : A -> A -> bool.
Variable R : A -> A -> Prop.
Hypothesis before_true : forall x y, before y x = true -> R y x.
Hypothesis before_false : forall x y, before y x = false -> R x y.

Lemma insert_sorted_hd (x y : A) (l : list A) :
  R y x -> HdRel R y l -> HdRel R y (insert_sorted before x l).
Proof.
  intros Hyx Hl. destruct l as [|z l]; simpl.
  - constructor. exact Hyx.
  - destruct (before z x); constructor; [inversion Hl; assumption | exact Hyx].
Qed.

Lemma insert_sorted_Sorted (x : A) (l : list A) :
  Sorted R l -> Sorted R (insert_sorted before x l).
Proof.
  induction 1 as [|y l Hl IH Hhd]; simpl.
  - repeat constructor.
  - destruct (before y x) eqn:E.
    + constructor; [exact IH|]. apply insert_sorted_hd; [now apply before_true | exact Hhd].
    + constructor; [constructor; assumption|]. constructor. now apply before_false.
Qed.

Lemma sort_by_Sorted (l : list A) : Sorted R (sort_by before l).
Proof.
  induction l as [|x l IH]; simpl; [constructor|]. now apply insert_sorted_Sorted.
Qed.

End SortProps.

Lemma insert_sorted_perm {A} (before : A -> A -> bool) (x : A) (l : list A) :
  Permutation (insert_sorted before x l) (x :: l).
Proof.
  induction l as [|y l IH]; simpl; [reflexivity|].
  destruct (before y x); [|reflexivity].
  transitivity (y :: x :: l); [now constructor | apply perm_swap].
Qed.

Lemma sort_by_perm {A} (before : A -> A -> bool) (l : list A) :
  Permutation (sort_by before l) l.
Proof.
  induction l as [|x l IH]; simpl; [reflexivity|].
  rewrite insert_sorted_perm. now constructor.
Qed.

Lemma sort_newer_Sorted (l : list recipe) :
  Sorted (fun a b => createdAt b <= createdAt a) (sort_by newer l).
Proof.
  apply sort_by_Sorted; unfold newer; intros x y H.
  - apply Z.ltb_lt in H. lia.
  - apply Z.ltb_ge in H. lia.
Qed.

Lemma ceil_div_bounds (t s : Z) :
  0 < s -> (ceil_div t s - 1) * s < t <= ceil_div t s * s.
Proof.
  intros Hs. unfold ceil_div.
  pose proof (Z.div_mod (- t) s ltac:(lia)) as Hdm.
  pose proof (Z.mod_pos_bound (- t) s Hs) as Hb.
  set (q := (- t) / s) in *. set (r := (- t) mod s) in *.
  nia.
Qed.

(* ------------------------------------------------------------------ *)
(** ** C4: pagination of GET / *)

(** C4 (amended). For query parameters given once each, numeric bounds
    that cast (see C9), a page [p >= 1] and a page size [s >= 1] (a limit
    of 0, absent or not numeric means 12) with [p * s <= 2^53], and fewer
    than 2^53 stored recipes (the range where JavaScript numbers hold
    these integers exactly), the listing returns the slice
    [(p-1)*s, p*s) of the matching recipes sorted by creation time, most
    recent first, with totalPages = ceil(total/s), hasNext = p <
    totalPages and hasPrev = p > 1; a page beyond the last one is empty
    with hasNext = false. *)
Theorem list_recipes_pagination (tm : string -> recipe -> bool) (store : list recipe)
    (q : query) (p s : Z) :
  parse_or (q_page q) 1 = p -> parse_or (q_limit q) 12 = s ->
  1 <= p -> 1 <= s -> castable (build_filter q) = true ->
  p * s <= 2 ^ 53 -> Z.of_nat (length store) < 2 ^ 53 ->
  let matched := List.filter (matches tm (build_filter q)) store in
  let sorted := sort_by newer matched in
  let total := Z.of_nat (length matched) in
  exists items,
    list_recipes tm store q =
      Listing items (mkPagination p (ceil_div total s) total
                       (p <? ceil_div total s) (p >? 1)) /\
    items = firstn (Z.to_nat s) (skipn (Z.to_nat ((p - 1) * s)) sorted) /\
    Sorted (fun a b => createdAt b <= createdAt a) sorted /\
    Permutation sorted matched /\
    (ceil_div total s - 1) * s < total <= ceil_div total s * s /\
    (ceil_div total s < p -> items = [] /\ (p <? ceil_div total s) = false).
Proof.
  intros Hp Hs Hp1 Hs1 Hc _ _ matched sorted total.
  exists (firstn (Z.to_nat s) (skipn (Z.to_nat ((p - 1) * s)) sorted)).
  pose proof (ceil_div_bounds total s ltac:(lia)) as Hceil.
  split; [|split; [reflexivity|split; [apply sort_newer_Sorted|split; [apply sort_by_perm|split; [exact Hceil|]]]]].
  - unfold list_recipes. rewrite Hp, Hs, Hc. simpl negb. cbv iota.
    unfold cursor_skip.
    replace ((p - 1) * s <? 0) with false by (symmetry; apply Z.ltb_ge; nia).
    unfold cursor_limit. replace (s =? 0) with false by (symmetry; apply Z.eqb_neq; lia).
    now rewrite Z.abs_eq by lia.
  - intros Hlt. split.
    + assert (Hlen : length sorted = length matched)
        by apply (Permutation_length (sort_by_perm newer matched)).
      rewrite skipn_all2; [now rewrite firstn_nil|].
      rewrite Hlen. assert (Ht : total <= (p - 1) * s) by nia.
      unfold total in Ht. set (k := (p - 1) * s) in *. lia.
    + apply Z.ltb_ge. lia.
Qed.

(** 25 Italian recipes created at times 0 to 24. *)
Definition store25 : list recipe :=
  map (fun k => sample_recipe oid1 "Italian" 10 (Z.of_nat k) []) (seq 0 25).

Definition page_query (page limit : option string) : query :=
  mkQuery page limit None None None None None None None None.

Definition no_text (s : string) (r : recipe) : bool := false.

(** Witness: page 3 of 25 matches with the default page size. *)
Lemma list_recipes_pagination_witness :
  exists items,
    list_recipes no_text store25 (page_query (Some "3") None) =
      Listing items (mkPagination 3 (ceil_div 25 12) 25 (3 <? ceil_div 25 12) (3 >? 1)) /\
    items = firstn 12 (skipn 24 (sort_by newer store25)) /\
    Sorted (fun a b => createdAt b <= createdAt a) (sort_by newer store25) /\
    Permutation (sort_by newer store25) store25 /\
    (ceil_div 25 12 - 1) * 12 < 25 <= ceil_div 25 12 * 12 /\
    (ceil_div 25 12 < 3 -> items = [] /\ (3 <? ceil_div 25 12) = false).
Proof.
  exact (list_recipes_pagination no_text store25 (page_query (Some "3") None) 3 12
           eq_refl eq_refl ltac:(lia) ltac:(lia) eq_refl ltac:(lia)
           ltac:(vm_compute; reflexivity)).
Defined.

Definition page_summary (r : list_result) : option (nat * Z * bool * bool) :=
  match r with
  | Listing items p => Some (length items, totalPages p, hasNext p, hasPrev p)
  | ListingError500 => None
  end.

(** The pages of the example: 12, 12, 1 and 0 items out of 3 pages. *)
Example list_recipes_pages_25 :
  page_summary (list_recipes no_text store25 (page_query (Some "1") (Some "12")))
    = Some (12%nat, 3, true, false) /\
  page_summary (list_recipes no_text store25 (page_query (Some "3") (Some "12")))
    = Some (1%nat, 3, false, true) /\
  page_summary (list_recipes no_text store25 (page_query (Some "4") (Some "12")))
    = Some (0%nat, 3, false, true).
Proof. vm_compute. repeat split. Qed.

(** C4 (as stated, refuted). With page size 0 the slice [0, 0) is
    empty, but [parseInt('0') || 12] turns the size into 12: page 1
    holds 12 recipes. *)
Lemma list_recipes_limit0_counterexample :
  page_summary (list_recipes no_text store25 (page_query (Some "1") (Some "0")))
    = Some (12%nat, 3, true, false).
Proof. vm_compute. reflexivity. Qed.

(* ------------------------------------------------------------------ *)
(** ** C5: favorites *)

Lemma filter_not_in (p : string) (l : list string) :
  ~ In p l -> List.filter (fun x => negb (String.eqb x p)) l = l.
Proof.
  induction l as [|x l IH]; simpl; intros Hn; [reflexivity|].
  destruct (String.eqb x p) eqn:E.
  - apply String.eqb_eq in E. subst. tauto.
  - simpl. f_equal. apply IH. tauto.
Qed.

Lemma member_In (s : string) (l : list string) : In s l -> member s l = true.
Proof.
  unfold member. intros H. apply existsb_exists. exists s.
  split; [exact H | apply String.eqb_refl].
Qed.

Lemma save_user_same (d : db) (uid : string) (u : user) :
  users d !! uid = Some u -> save_user uid (mkUser (u_id u) (favoriteRecipes u)) d = d.
Proof.
  intros Hu. destruct d as [rs us], u as [i fs]. unfold save_user. simpl in *.
  now rewrite insert_id.
Qed.

(** C5. For a user [U] and a recipe id [R]: adding [R] when the recipe
    does not exist fails with "Recipe not found" before the user is read;
    adding an existing [R] already among [U]'s favorites fails with
    "Recipe already in favorites" and changes nothing; removing an [R]
    that is not among [U]'s favorites succeeds and changes nothing; and
    removal never reads the recipes: its outcome is the same whatever
    recipes the store holds. *)
Theorem favorite_asymmetry (d : db) (p uid id : string) (u : user) :
  cast_oid p = Some id -> users d !! uid = Some u ->
  (find_recipe id (recipes d) = None ->
     forall us, favorite_add (mkDb (recipes d) us) p uid
                = (NotFound404 "Recipe not found", mkDb (recipes d) us)) /\
  (forall r, find_recipe id (recipes d) = Some r -> In (r_id r) (favoriteRecipes u) ->
     favorite_add d p uid = (BadRequest400 "Recipe already in favorites", d)) /\
  (~ In p (favoriteRecipes u) ->
     favorite_remove d p uid = (Ok200 "Recipe removed from favorites", d)) /\
  (forall rs, fst (favorite_remove (mkDb rs (users d)) p uid) = fst (favorite_remove d p uid) /\
              users (snd (favorite_remove (mkDb rs (users d)) p uid))
              = users (snd (favorite_remove d p uid))).
Proof.
  intros Hc Hu. split; [|split; [|split]].
  - intros Hf us. unfold favorite_add. rewrite Hc. simpl. now rewrite Hf.
  - intros r Hf Hin. unfold favorite_add. rewrite Hc, Hf, Hu.
    now rewrite member_In.
  - intros Hn. unfold favorite_remove. rewrite Hu.
    rewrite filter_not_in by exact Hn. now rewrite save_user_same.
  - intros rs. unfold favorite_remove. simpl. rewrite Hu. split; reflexivity.
Qed.

Definition fav_db : db :=
  mkDb [sample_recipe oid1 "Italian" 10 1 []] {[ alice := mkUser alice [oid1] ]}.

(** Witness: [alice] has [oid1] among her favorites; [oid2] is no recipe. *)
Lemma favorite_asymmetry_witness :
  favorite_add fav_db oid1 alice = (BadRequest400 "Recipe already in favorites", fav_db) /\
  favorite_remove fav_db oid2 alice = (Ok200 "Recipe removed from favorites", fav_db).
Proof.
  destruct (favorite_asymmetry fav_db oid1 alice oid1 (mkUser alice [oid1]) eq_refl eq_refl)
    as [_ [Hadd _]].
  destruct (favorite_asymmetry fav_db oid2 alice oid2 (mkUser alice [oid1]) eq_refl eq_refl)
    as [_ [_ [Hrem _]]].
  split.
  - apply (Hadd (sample_recipe oid1 "Italian" 10 1 [])); [reflexivity | simpl; tauto].
  - apply Hrem. simpl. intros [H|H]; [discriminate | exact H].
Defined.

(* ------------------------------------------------------------------ *)
(** ** C6: rating a recipe that does not exist *)

(** C6 (amended). Rating with a valid value through an id that names no
    recipe changes nothing; the response is "Recipe not found" (404)
    when the id is a well-formed ObjectId and a server error (500, the
    CastError of [findById]) when it is not. *)
Theorem rate_missing_recipe (d : db) (p uid : string) (v now : Z) :
  1 <= v <= 5 ->
  (forall id, cast_oid p = Some id -> find_recipe id (recipes d) = None) ->
  rate d p uid v now =
    (match cast_oid p with
     | Some _ => NotFound404 "Recipe not found"
     | None => ServerError500
     end, d).
Proof.
  intros Hv Hnone. unfold rate.
  replace ((1 <=? v) && (v <=? 5)) with true
    by (symmetry; apply andb_true_iff; split; apply Z.leb_le; lia).
  simpl. destruct (cast_oid p) as [id|] eqn:Hc; [|reflexivity].
  now rewrite (Hnone id eq_refl).
Qed.

(** Witness: the empty catalog and a well-formed id. *)
Lemma rate_missing_recipe_witness :
  rate empty_db oid1 alice 3 0 = (NotFound404 "Recipe not found", empty_db).
Proof.
  exact (rate_missing_recipe empty_db oid1 alice 3 0 ltac:(lia)
           (fun id _ => eq_refl)).
Defined.

(** C6 (as stated, refuted). The id "abc" names no recipe, but the
    route answers with a server error, not "Recipe not found". *)
Lemma rate_missing_recipe_counterexample :
  (forall id, cast_oid "abc" = Some id -> find_recipe id (recipes empty_db) = None) /\
  rate empty_db "abc" alice 3 0 = (ServerError500, empty_db).
Proof.
  split; [intros id H; discriminate H | reflexivity].
Qed.

(* ------------------------------------------------------------------ *)
(** ** C7: the filter is a conjunction *)











(* ------------------------------------------------------------------ *)
(** ** C8: GET /popular *)

(** [a] may be listed ahead of [b]: a higher largest rating, or the
    same and created no earlier. *)
Definition popular_order (a b : recipe) : Prop :=
  key_gt (max_rating a) (max_rating b) = true \/
  (max_rating a = max_rating b /\ createdAt b <= createdAt a).

Lemma key_gt_total (a b : option Z) :
  key_gt a b = false -> key_gt b a = false -> a = b.
Proof.
  destruct a as [x|], b as [y|]; simpl; try discriminate; [|reflexivity].
  intros H1 H2. apply Z.ltb_ge in H1, H2. f_equal. lia.
Qed.

Lemma popular_sorted (l : list recipe) : Sorted popular_order (sort_by popular_before l).
Proof.
  apply sort_by_Sorted; unfold popular_before, popular_order, newer; intros x y H.
  - apply orb_true_iff in H as [H|H]; [now left|].
    apply andb_true_iff in H as [H1 H2]. apply negb_true_iff in H1.
    apply Z.ltb_lt in H2.
    destruct (key_gt (max_rating y) (max_rating x)) eqn:E; [now left|right].
    split; [|lia]. symmetry. now apply key_gt_total.
  - apply orb_false_iff in H as [H1 H2].
    destruct (key_gt (max_rating x) (max_rating y)) eqn:E; [now left|right].
    simpl in H2. apply Z.ltb_ge in H2. split; [|lia].
    now apply key_gt_total.
Qed.

Lemma fold_max_spec (l : list Z) (a : Z) :
  (a = fold_left Z.max l a \/ In (fold_left Z.max l a) l) /\
  a <= fold_left Z.max l a /\ Forall (fun v => v <= fold_left Z.max l a) l.
Proof.
  revert a. induction l as [|x l IH]; intros a; simpl.
  - split; [now left|]. split; [lia | constructor].
  - destruct (IH (Z.max a x)) as [[Heq|Hin] [Hge Hall]].
    + split; [|split; [lia | constructor; [lia | exact Hall]]].
      rewrite <- Heq. destruct (Z.max_spec a x) as [[_ ->]|[_ ->]]; [right; now left | now left].
    + split; [right; now right|]. split; [lia | constructor; [lia | exact Hall]].
Qed.

(** [max_rating] is the largest rating value, [None] without ratings. *)
Lemma max_rating_spec (r : recipe) :
  (max_rating r = None <-> ratings r = []) /\
  (forall m, max_rating r = Some m ->
     In m (map rating_value (ratings r)) /\ Forall (fun v => v <= m) (map rating_value (ratings r))).
Proof.
  unfold max_rating. destruct (ratings r) as [|x xs]; simpl.
  - split; [tauto|]. intros m H. discriminate.
  - split; [split; discriminate|]. intros m Hm. injection Hm as <-.
    destruct (fold_max_spec (map rating_value xs) (rating_value x)) as [[Heq|Hin] [Hge Hall]].
    + split; [left; exact Heq | constructor; [lia | exact Hall]].
    + split; [right; exact Hin | constructor; [lia | exact Hall]].
Qed.

(** C8 (amended). The popular listing is the first 12 recipes (all of
    them when there are fewer) in the order of their largest individual
    rating value, highest first, recipes without ratings last, ties by
    creation time, most recent first; it is not ordered by
    averageRating and it is not paginated. *)
Theorem popular_by_max_rating (store : list recipe) :
  popular store = firstn 12 (sort_by popular_before store) /\
  Sorted popular_order (sort_by popular_before store) /\
  Permutation (sort_by popular_before store) store /\
  length (popular store) = Nat.min 12 (length store) /\
  (forall r, (max_rating r = None <-> ratings r = []) /\
     (forall m, max_rating r = Some m ->
        In m (map rating_value (ratings r)) /\
        Forall (fun v => v <= m) (map rating_value (ratings r)))).
Proof.
  split; [reflexivity|]. split; [apply popular_sorted|].
  split; [apply sort_by_perm|]. split; [|exact max_rating_spec].
  unfold popular, cursor_limit. simpl.
  rewrite length_firstn, (Permutation_length (sort_by_perm popular_before store)).
  reflexivity.
Qed.

(** A recipe rated 5, 1, 1 (average "2.3") and a newer one rated 4
    (average "4.0"). *)
Definition popular_store : list recipe :=
  [sample_recipe oid1 "Italian" 10 1 (ratings_of_values [5; 1; 1]);
   sample_recipe oid2 "Italian" 10 2 (ratings_of_values [4])].

(** C8 (as stated, refuted). The recipe with the lower averageRating is
    listed first, because its largest single rating is higher. *)
Lemma popular_average_counterexample :
  map r_id (popular popular_store) = [oid1; oid2] /\
  map (fun r => averageRating (ratings r)) popular_store = [JsStr "2.3"; JsStr "4.0"].
Proof. vm_compute. split; reflexivity. Qed.

(* ------------------------------------------------------------------ *)
(** ** C9: a malformed numeric parameter *)

Definition prep_abc : query :=
  mkQuery None None None None None None (Some "abc") None None None.

(** C9 (code_bug). With maxPrepTime "abc" the filter holds
    [prepTime: { $lte: NaN }], and Mongoose rejects it when casting the
    query: the listing fails with a server error whatever the store,
    while the same query without the parameter lists the store. *)
Theorem malformed_bound_fails (tm : string -> recipe -> bool) (store : list recipe) :
  f_prepTime (build_filter prep_abc) = Some None /\
  f_prepTime (build_filter empty_query) = None /\
  list_recipes tm store prep_abc = ListingError500 /\
  exists items p, list_recipes tm store empty_query = Listing items p.
Proof.
  split; [reflexivity|]. split; [reflexivity|]. split; [reflexivity|].
  unfold list_recipes. simpl. eexists. eexists. reflexivity.
Qed.

(* ------------------------------------------------------------------ *)
(** ** C10: empty parameters *)

Inductive filter_param :=
  | PCuisine | PDiet | PDifficulty | PSearch
  | PMaxPrepTime | PMaxCookTime | PMaxCalories | PIngredients.

Definition set_param (k : filter_param) (v : option string) (q : query) : query :=
  let '(mkQuery pg lm cu di df se mp mc ml ig) := q in
  match k with
  | PCuisine => mkQuery pg lm v di df se mp mc ml ig
  | PDiet => mkQuery pg lm cu v df se mp mc ml ig
  | PDifficulty => mkQuery pg lm cu di v se mp mc ml ig
  | PSearch => mkQuery pg lm cu di df v mp mc ml ig
  | PMaxPrepTime => mkQuery pg lm cu di df se v mc ml ig
  | PMaxCookTime => mkQuery pg lm cu di df se mp v ml ig
  | PMaxCalories => mkQuery pg lm cu di df se mp mc v ig
  | PIngredients => mkQuery pg lm cu di df se mp mc ml v
  end.

(** C10. A filter parameter given as the empty string builds the same
    filter object, and so the same listing, as the parameter left out. *)
Theorem empty_param_is_absent (k : filter_param) (q : query)
    (tm : string -> recipe -> bool) (store : list recipe) :
  build_filter (set_param k (Some "") q) = build_filter (set_param k None q) /\
  list_recipes tm store (set_param k (Some "") q) = list_recipes tm store (set_param k None q).
Proof.
  destruct q; destruct k; split; reflexivity.
Qed.

(* ================================================================== *)
(** * Further properties of the routes *)

(* ------------------------------------------------------------------ *)
(** ** Failed mutations change nothing *)


(** A rating outside 1..5 is refused with 400 before the recipe is
    looked up, whatever the id, and changes nothing. *)
Theorem rate_out_of_range (d : db) (p uid : string) (v now : Z) :
  v < 1 \/ 5 < v -> rate d p uid v now = (BadRequest400 "Rating must be between 1 and 5", d).
Proof.
  intros Hv. unfold rate.
  replace ((1 <=? v) && (v <=? 5)) with false; [reflexivity|].
  symmetry. apply andb_false_iff. destruct Hv; [left | right]; apply Z.leb_gt; lia.
Qed.

Lemma rate_out_of_range_witness :
  rate empty_db "abc" alice 6 0 = (BadRequest400 "Rating must be between 1 and 5", empty_db).
Proof. apply rate_out_of_range. lia. Defined.

(* ------------------------------------------------------------------ *)
(** ** Comments *)

Lemma js_trim_empty : js_trim "" = "".
Proof. reflexivity. Qed.

Lemma schema_valid_commented (r : recipe) (uid t : string) (now : Z) :
  schema_valid r = true -> js_trim t <> "" -> (String.length (js_trim t) <= 500)%nat ->
  schema_valid (set_comments r (comments r ++ [mkComment uid (js_trim t) now])) = true.
Proof.
  intros Hs Ht Hl. apply schema_valid_set_comments; [exact Hs|].
  rewrite forallb_app, schema_valid_comments by exact Hs. simpl.
  unfold comment_valid. simpl.
  replace (String.eqb (js_trim t) "") with false by (symmetry; now apply String.eqb_neq).
  replace (String.length (js_trim t) <=? 500)%nat with true by (symmetry; now apply Nat.leb_le).
  reflexivity.
Qed.

Lemma comment_found (d : db) (p uid t : string) (now : Z) (id : string) (r : recipe) :
  js_trim t <> "" -> (String.length (js_trim t) <= 500)%nat ->
  cast_oid p = Some id -> find_recipe id (recipes d) = Some r -> schema_valid r = true ->
  comment_on d p uid t now =
    (Ok200 (js_trim t),
     save_recipe (set_comments r (comments r ++ [mkComment uid (js_trim t) now])) d).
Proof.
  intros Ht Hl Hc Hf Hs. unfold comment_on.
  replace (String.eqb t "") with false
    by (symmetry; apply String.eqb_neq; intros ->; exact (Ht js_trim_empty)).
  rewrite Hc, Hf, (schema_valid_commented r uid t now Hs Ht Hl). reflexivity.
Qed.

Lemma find_after_comment (d : db) (p uid t : string) (now : Z) (id : string) (r : recipe) :
  js_trim t <> "" -> (String.length (js_trim t) <= 500)%nat ->
  cast_oid p = Some id -> find_recipe id (recipes d) = Some r -> schema_valid r = true ->
  find_recipe id (recipes (snd (comment_on d p uid t now))) =
    Some (set_comments r (comments r ++ [mkComment uid (js_trim t) now])).
Proof.
  intros Ht Hl Hc Hf Hs. rewrite (comment_found d p uid t now id r Ht Hl Hc Hf Hs).
  unfold save_recipe. cbn [snd recipes].
  apply (find_recipe_save id (recipes d) r); [exact Hf|].
  apply find_recipe_In in Hf as [_ Hid]. exact Hid.
Qed.

(** Two comments by the same user on a valid recipe, each of 1 to 500
    characters once its surrounding white space is removed, are both
    kept, trimmed, in the order they were made, after the existing ones;
    the ratings are untouched. *)
Theorem comment_twice_appends (d : db) (p uid t1 t2 : string) (n1 n2 : Z)
    (id : string) (r : recipe) :
  js_trim t1 <> "" -> js_trim t2 <> "" ->
  (String.length (js_trim t1) <= 500)%nat -> (String.length (js_trim t2) <= 500)%nat ->
  cast_oid p = Some id -> find_recipe id (recipes d) = Some r -> schema_valid r = true ->
  exists r2,
    find_recipe id (recipes (snd (comment_on (snd (comment_on d p uid t1 n1)) p uid t2 n2)))
      = Some r2 /\
    comments r2 = comments r ++ [mkComment uid (js_trim t1) n1; mkComment uid (js_trim t2) n2] /\
    ratings r2 = ratings r.
Proof.
  intros H1 H2 L1 L2 Hc Hf Hs.
  pose proof (find_after_comment d p uid t1 n1 id r H1 L1 Hc Hf Hs) as Hf1.
  eexists. split.
  - exact (find_after_comment _ p uid t2 n2 id _ H2 L2 Hc Hf1
             (schema_valid_commented r uid t1 n1 Hs H1 L1)).
  - simpl. split; [|reflexivity]. now rewrite <- app_assoc.
Qed.

Lemma comment_twice_appends_witness :
  exists r2,
    find_recipe oid1 (recipes (snd (comment_on (snd (comment_on
      (mkDb [sample_recipe oid1 "Italian" 10 1 []] ∅) oid1 alice " hi" 0)) oid1 alice "there " 1)))
      = Some r2 /\
    comments r2 = [] ++ [mkComment alice "hi" 0; mkComment alice "there" 1] /\
    ratings r2 = [].
Proof.
  exact (comment_twice_appends (mkDb [sample_recipe oid1 "Italian" 10 1 []] ∅)
           oid1 alice " hi" "there " 0 1 oid1
           (sample_recipe oid1 "Italian" 10 1 []) ltac:(vm_compute; discriminate)
           ltac:(vm_compute; discriminate) ltac:(vm_compute; lia) ltac:(vm_compute; lia)
           eq_refl eq_refl ltac:(vm_compute; reflexivity)).
Defined.

(* ------------------------------------------------------------------ *)
(** ** What a rating changes *)

Lemma find_none_existsb (uid : string) (rs : list rating) :
  List.find (fun x => String.eqb (rating_user x) uid) rs = None <->
  existsb (fun x => String.eqb (rating_user x) uid) rs = false.
Proof.
  induction rs as [|x xs IH]; simpl; [tauto|].
  destruct (String.eqb (rating_user x) uid); simpl; [split; discriminate | exact IH].
Qed.

Lemma set_first_rating_length (uid : string) (v : Z) (rs : list rating) :
  length (set_first_rating uid v rs) = length rs.
Proof.
  induction rs as [|x xs IH]; simpl; [reflexivity|].
  destruct (String.eqb (rating_user x) uid); simpl; congruence.
Qed.

Lemma ratings_of_set_first_other (u uid : string) (v : Z) (rs : list rating) :
  u <> uid -> ratings_of u (set_first_rating uid v rs) = ratings_of u rs.
Proof.
  intros Hne. unfold ratings_of.
  induction rs as [|x xs IH]; simpl; [reflexivity|].
  destruct (String.eqb (rating_user x) uid) eqn:E; simpl.
  - apply String.eqb_eq in E. rewrite E.
    replace (String.eqb uid u) with false by (symmetry; apply String.eqb_neq; congruence).
    reflexivity.
  - destruct (String.eqb (rating_user x) u); [f_equal|]; exact IH.
Qed.

(** A successful rating by [uid] adds one entry when [uid] had none and
    none otherwise, leaves the entries of every other user as they were,
    and leaves the comments alone. *)
Theorem rate_changes_only_rater (d : db) (p uid : string) (v now : Z) (id : string)
    (r : recipe) :
  1 <= v <= 5 -> cast_oid p = Some id -> find_recipe id (recipes d) = Some r ->
  schema_valid r = true ->
  exists r',
    find_recipe id (recipes (snd (rate d p uid v now))) = Some r' /\
    length (ratings r') =
      (length (ratings r) +
       if existsb (fun x => String.eqb (rating_user x) uid) (ratings r) then 0 else 1)%nat /\
    (forall u, u <> uid -> ratings_of u (ratings r') = ratings_of u (ratings r)) /\
    comments r' = comments r.
Proof.
  intros Hv Hc Hf Hs. eexists. split; [exact (find_after_rate d p uid v now id r Hv Hc Hf Hs)|].
  rewrite ratings_set_ratings. unfold upsert_rating.
  destruct (List.find (fun x => String.eqb (rating_user x) uid) (ratings r)) eqn:E.
  - assert (Hex : existsb (fun x => String.eqb (rating_user x) uid) (ratings r) = true).
    { destruct (existsb _ _) eqn:E2; [reflexivity|].
      apply find_none_existsb in E2. congruence. }
    rewrite Hex. split; [rewrite set_first_rating_length; lia|].
    split; [|reflexivity]. intros u Hu. now apply ratings_of_set_first_other.
  - apply find_none_existsb in E as E2. rewrite E2.
    split; [rewrite length_app; simpl; lia|]. split; [|reflexivity].
    intros u Hu. unfold ratings_of. rewrite List.filter_app. simpl.
    replace (String.eqb uid u) with false by (symmetry; apply String.eqb_neq; congruence).
    apply app_nil_r.
Qed.

Lemma rate_changes_only_rater_witness :
  exists r',
    find_recipe oid1 (recipes (snd (rate
      (mkDb [sample_recipe oid1 "Italian" 10 1 [mkRating oid2 4 0]] ∅) oid1 alice 5 1)))
      = Some r' /\
    length (ratings r') = (1 + if existsb (fun x => String.eqb (rating_user x) alice)
                                    [mkRating oid2 4 0] then 0 else 1)%nat /\
    (forall u, u <> alice -> ratings_of u (ratings r') = ratings_of u [mkRating oid2 4 0]) /\
    comments r' = [].
Proof.
  exact (rate_changes_only_rater (mkDb [sample_recipe oid1 "Italian" 10 1 [mkRating oid2 4 0]] ∅)
           oid1 alice 5 1 oid1 (sample_recipe oid1 "Italian" 10 1 [mkRating oid2 4 0])
           ltac:(lia) eq_refl eq_refl ltac:(vm_compute; reflexivity)).
Defined.

Lemma save_recipe_others (d : db) (r' : recipe) :
  List.filter (fun x => negb (String.eqb (r_id x) (r_id r'))) (recipes (save_recipe r' d)) =
  List.filter (fun x => negb (String.eqb (r_id x) (r_id r'))) (recipes d).
Proof.
  unfold save_recipe. simpl. induction (recipes d) as [|x l IH]; simpl; [reflexivity|].
  destruct (String.eqb (r_id x) (r_id r')) eqn:E; simpl.
  - rewrite String.eqb_refl. simpl. exact IH.
  - rewrite E. simpl. f_equal. exact IH.
Qed.

(** Rating or commenting on one recipe leaves every recipe with another
    id as it was, in the same order. *)
Theorem rate_comment_other_recipes (d : db) (p : string) (id : string) :
  cast_oid p = Some id ->
  (forall uid v now,
     List.filter (fun x => negb (String.eqb (r_id x) id)) (recipes (snd (rate d p uid v now))) =
     List.filter (fun x => negb (String.eqb (r_id x) id)) (recipes d)) /\
  (forall uid t now,
     List.filter (fun x => negb (String.eqb (r_id x) id)) (recipes (snd (comment_on d p uid t now))) =
     List.filter (fun x => negb (String.eqb (r_id x) id)) (recipes d)).
Proof.
  intros Hc. split; intros.
  - unfold rate. destruct (negb _); [reflexivity|]. rewrite Hc.
    destruct (find_recipe id (recipes d)) as [r|] eqn:Hf; [|reflexivity].
    destruct (schema_valid _); [|reflexivity].
    apply find_recipe_In in Hf as [_ Hid]. simpl.
    rewrite <- Hid. exact (save_recipe_others d (set_ratings r _)).
  - unfold comment_on. destruct (String.eqb t ""); [reflexivity|]. rewrite Hc.
    destruct (find_recipe id (recipes d)) as [r|] eqn:Hf; [|reflexivity].
    destruct (schema_valid _); [|reflexivity].
    apply find_recipe_In in Hf as [_ Hid]. simpl.
    rewrite <- Hid. exact (save_recipe_others d (set_comments r _)).
Qed.

Definition popular_store_db : db := mkDb popular_store ∅.

Lemma rate_comment_other_recipes_witness :
  List.filter (fun x => negb (String.eqb (r_id x) oid1)) (recipes (snd (rate popular_store_db oid1 alice 3 0))) =
  List.filter (fun x => negb (String.eqb (r_id x) oid1)) (recipes popular_store_db).
Proof.
  exact (proj1 (rate_comment_other_recipes popular_store_db oid1 oid1 eq_refl) alice 3 0).
Defined.

(* ------------------------------------------------------------------ *)
(** ** Favorites *)

Lemma member_false_not_In (s : string) (l : list string) :
  member s l = false -> ~ In s l.
Proof.
  intros H Hin. unfold member in H.
  assert (existsb (String.eqb s) l = true)
    by (apply existsb_exists; exists s; split; [exact Hin | apply String.eqb_refl]).
  congruence.
Qed.

Lemma favorite_add_unique (d : db) (p uid : string) :
  favorites_unique d -> favorites_unique (snd (favorite_add d p uid)).
Proof.
  unfold favorites_unique, favorite_add. intros Hd.
  destruct (cast_oid p) as [id|]; [|exact Hd].
  destruct (find_recipe id (recipes d)) as [r|]; [|exact Hd].
  destruct (users d !! uid) as [u|] eqn:Hu; [|exact Hd].
  destruct (member (r_id r) (favoriteRecipes u)) eqn:Hm; [exact Hd|].
  simpl. apply map_Forall_insert_2; [|exact Hd]. simpl.
  apply (Permutation_NoDup (Permutation_cons_append _ _)).
  constructor; [now apply member_false_not_In | exact (Hd uid u Hu)].
Qed.

Lemma favorite_remove_unique (d : db) (p uid : string) :
  favorites_unique d -> favorites_unique (snd (favorite_remove d p uid)).
Proof.
  unfold favorites_unique, favorite_remove. intros Hd.
  destruct (users d !! uid) as [u|] eqn:Hu; [|exact Hd].
  simpl. apply map_Forall_insert_2; [|exact Hd]. simpl.
  apply List.NoDup_filter. exact (Hd uid u Hu).
Qed.

(** No user's favorites ever hold a recipe id twice: every request of
    the catalog keeps this, from any state that has it. *)
Theorem favorites_unique_reachable (d d' : db) :
  favorites_unique d -> reachable any_body d d' -> favorites_unique d'.
Proof.
  intros Hd Hr. induction Hr as [d|d1 d2 d3 Hs _ IH]; [exact Hd|]. apply IH.
  destruct Hs as [d body uid id _ _|d p uid v now|d p uid t now|d p uid|d p uid].
  - unfold create. now repeat case_match.
  - unfold rate. now repeat case_match.
  - unfold comment_on. now repeat case_match.
  - now apply favorite_add_unique.
  - now apply favorite_remove_unique.
Qed.

Lemma favorites_unique_reachable_witness :
  favorites_unique (snd (favorite_add fav_db oid1 alice)).
Proof.
  apply (favorites_unique_reachable fav_db).
  - unfold favorites_unique, fav_db. simpl. apply map_Forall_singleton. simpl.
    constructor; [simpl; tauto | constructor].
  - apply rtc_once. apply step_favorite_add.
Defined.

(** Adding an existing recipe that is not yet a favorite and then
    removing it through the same (canonical) id restores the database. *)
Theorem favorite_add_remove_roundtrip (d : db) (p uid : string) (u : user) (r : recipe) :
  cast_oid p = Some p -> find_recipe p (recipes d) = Some r ->
  users d !! uid = Some u -> ~ In p (favoriteRecipes u) ->
  fst (favorite_add d p uid) = Ok200 "Recipe added to favorites" /\
  snd (favorite_remove (snd (favorite_add d p uid)) p uid) = d.
Proof.
  intros Hc Hf Hu Hn.
  pose proof (find_recipe_In p (recipes d) r Hf) as [_ Hid].
  unfold favorite_add. rewrite Hc, Hf, Hu, Hid.
  destruct (member p (favoriteRecipes u)) eqn:Hm.
  { exfalso. unfold member in Hm. apply existsb_exists in Hm as [x [Hx Heq]].
    apply String.eqb_eq in Heq. subst. tauto. }
  split; [reflexivity|]. unfold favorite_remove, save_user. simpl.
  rewrite lookup_insert_eq. simpl.
  rewrite List.filter_app, filter_not_in by exact Hn. simpl. rewrite String.eqb_refl. simpl.
  rewrite app_nil_r, insert_insert_eq.
  destruct d as [rs us], u as [i fs]. simpl in *. now rewrite insert_id.
Qed.

Lemma favorite_add_remove_roundtrip_witness :
  fst (favorite_add (mkDb popular_store {[ alice := mkUser alice [] ]}) oid2 alice)
    = Ok200 "Recipe added to favorites" /\
  snd (favorite_remove (snd (favorite_add (mkDb popular_store {[ alice := mkUser alice [] ]})
    oid2 alice)) oid2 alice) = mkDb popular_store {[ alice := mkUser alice [] ]}.
Proof.
  exact (favorite_add_remove_roundtrip (mkDb popular_store {[ alice := mkUser alice [] ]})
           oid2 alice (mkUser alice []) (sample_recipe oid2 "Italian" 10 2 (ratings_of_values [4]))
           eq_refl eq_refl eq_refl (fun H => H)).
Defined.



(* ------------------------------------------------------------------ *)
(** ** Creating and reading recipes *)





(** A body with no ingredients or no instructions is refused with 400 and
    nothing is stored. *)
Theorem create_rejects_empty_lists (d : db) (body : recipe) (uid new_id : string) :
  ingredients body = [] \/ instructions body = [] ->
  create d body uid new_id = (BadRequest400 "validation", d).
Proof.
  intros H. unfold create, body_valid.
  destruct H as [H|H]; rewrite H; simpl;
    [now rewrite !andb_false_r | now rewrite !andb_false_r].
Qed.

Lemma create_rejects_empty_lists_witness :
  create empty_db (set_ratings (mkRecipe oid1 "Soup" "A soup" "soup.png" "Thai" "Regular" "Easy"
      [] [mkInstruction 1 "Boil"] 5 10 1 None alice [] [] [] 0) []) alice oid1
    = (BadRequest400 "validation", empty_db).
Proof.
  apply create_rejects_empty_lists. left. reflexivity.
Defined.

(** [GET /user/:userId] answers 500 exactly for a malformed id; for a
    well-formed one it lists the recipes of that author (every one, and
    no other), newest first. *)
Theorem recipes_by_author_spec (d : db) (p : string) :
  match cast_oid p with
  | None => recipes_by_author d p = Failed500
  | Some a => exists l, recipes_by_author d p = Found l /\
      Permutation l (List.filter (fun r => String.eqb (author r) a) (recipes d)) /\
      Sorted (fun x y => createdAt y <= createdAt x) l
  end.
Proof.
  unfold recipes_by_author. destruct (cast_oid p) as [a|]; [|reflexivity].
  eexists. split; [reflexivity|]. split; [apply sort_by_perm | apply sort_newer_Sorted].
Qed.

(** [GET /users/:id/favorites]: 500 for a malformed id; 404 for an
    unknown user; otherwise the stored recipes among the favorites, in
    the order of the favorites, with the ids of deleted recipes left
    out. *)
Theorem user_favorites_spec (d : db) (p : string) :
  match cast_oid p with
  | None => user_favorites d p = Failed500
  | Some id =>
      match users d !! id with
      | None => user_favorites d p = Missing404
      | Some u => exists l, user_favorites d p = Found l /\
          map r_id l = List.filter (fun i => if find_recipe i (recipes d) then true else false)
                         (favoriteRecipes u) /\
          (forall r, In r l -> In r (recipes d))
      end
  end.
Proof.
  unfold user_favorites. destruct (cast_oid p) as [id|]; [|reflexivity].
  destruct (users d !! id) as [u|]; [|reflexivity].
  eexists. split; [reflexivity|].
  induction (favoriteRecipes u) as [|i ids IH]; simpl; [split; [reflexivity | tauto]|].
  destruct IH as [IH1 IH2].
  destruct (find_recipe i (recipes d)) as [r|] eqn:Hf; simpl; [|split; assumption].
  pose proof (find_recipe_In _ _ _ Hf) as [Hin Hid]. split.
  - now rewrite Hid, IH1.
  - intros r' [<-|H]; [exact Hin | exact (IH2 r' H)].
Qed.

Lemma user_favorites_spec_witness :
  exists l, user_favorites (mkDb popular_store {[ alice := mkUser alice [oid1; oid2] ]}) alice
              = Found l /\
    map r_id l = List.filter (fun i => if find_recipe i popular_store then true else false) [oid1; oid2] /\
    (forall r, In r l -> In r popular_store).
Proof.
  exact (user_favorites_spec (mkDb popular_store {[ alice := mkUser alice [oid1; oid2] ]}) alice).
Defined.

(** The profile route answers 500 for a malformed id, as
    [GET /user/:userId] does; for a well-formed id it answers 404 when no
    user has it, even when recipes of that author exist, and for a user
    it lists exactly what [GET /user/:userId] lists for the same id. *)
Theorem user_profile_recipes (d : db) (p : string) :
  match cast_oid p with
  | None => user_profile d p = Failed500 /\ recipes_by_author d p = Failed500
  | Some id =>
      match users d !! id with
      | None => user_profile d p = Missing404
      | Some u => exists favs l, user_profile d p = Found (u, favs, l) /\
          recipes_by_author d p = Found l
      end
  end.
Proof.
  unfold user_profile, recipes_by_author. destruct (cast_oid p) as [id|]; [|split; reflexivity].
  destruct (users d !! id); [|reflexivity]. eauto.
Qed.

Lemma user_profile_recipes_witness :
  user_profile (mkDb popular_store ∅) alice = Missing404 /\
  recipes_by_author (mkDb popular_store ∅) alice <> Found [].
Proof.
  split.
  - exact (user_profile_recipes (mkDb popular_store ∅) alice).
  - vm_compute. discriminate.
Defined.

(* ------------------------------------------------------------------ *)
(** ** Listing errors, profile updates, stored times *)

(** For query parameters given once each, with bounds that cast and a
    page, a limit and a computed skip [(page - 1) * limit] of magnitude
    at most 2^53 (the range where JavaScript numbers hold these integers
    exactly), [GET /] fails exactly when the skip is negative: a page
    below 1 with a positive limit, or a page above 1 with a negative
    limit. *)
Theorem list_recipes_error_iff (tm : string -> recipe -> bool) (store : list recipe) (q : query) :
  castable (build_filter q) = true ->
  Z.abs (parse_or (q_page q) 1) <= 2 ^ 53 -> Z.abs (parse_or (q_limit q) 12) <= 2 ^ 53 ->
  Z.abs ((parse_or (q_page q) 1 - 1) * parse_or (q_limit q) 12) <= 2 ^ 53 ->
  (list_recipes tm store q = ListingError500 <->
   (parse_or (q_page q) 1 - 1) * parse_or (q_limit q) 12 < 0).
Proof.
  intros Hc _ _ _. unfold list_recipes, cursor_skip. rewrite Hc. simpl.
  destruct (Z.ltb_spec ((parse_or (q_page q) 1 - 1) * parse_or (q_limit q) 12) 0).
  - tauto.
  - split; [discriminate | lia].
Qed.

Lemma list_recipes_error_iff_witness :
  list_recipes no_text store25 (page_query (Some "-1") (Some "5")) = ListingError500.
Proof.
  apply (list_recipes_error_iff no_text store25 (page_query (Some "-1") (Some "5")));
    vm_compute; first [reflexivity | discriminate].
Defined.

(** [PUT /users/:id]: another user's request is refused with 403 before
    the body is looked at; a valid request of the owner sets exactly the
    fields given as non-empty strings, so an empty bio or avatar leaves
    the stored value in place, and a username that passes validation is
    never empty. *)
Theorem update_profile_outcome (auth p : string) (b : profile_body) :
  match update_profile_request auth p b with
  | Forbidden403 => auth <> p
  | Invalid400 => auth = p /\ profile_body_valid b = false
  | UpdateUser id upd =>
      auth = p /\ id = p /\ profile_body_valid b = true /\
      set_username upd = b_username b /\
      set_bio upd = match b_bio b with Some EmptyString => None | o => o end /\
      set_avatar upd = match b_avatar b with Some EmptyString => None | o => o end
  end.
Proof.
  unfold update_profile_request.
  destruct (String.eqb_spec auth p) as [<-|Hne]; simpl; [|exact Hne].
  destruct (profile_body_valid b) eqn:Hv; simpl; [|tauto].
  repeat split; [| |].
  - unfold profile_body_valid in Hv. destruct b as [[u|] bi av]; simpl in *; [|reflexivity].
    destruct (String.eqb_spec u ""); [subst; discriminate|reflexivity].
  - destruct b as [un [[|c s]|] av]; reflexivity.
  - destruct b as [un bi [[|c s]|]]; reflexivity.
Qed.

(** Non-negative preparation and cooking times on every stored recipe. *)
Definition times_ok (d : db) : Prop :=
  Forall (fun r => (0 <= prepTime r)%Q /\ (0 <= cookTime r)%Q) (recipes d).

Lemma times_ok_save (d : db) (r r' : recipe) :
  times_ok d -> In r (recipes d) -> prepTime r' = prepTime r -> cookTime r' = cookTime r ->
  times_ok (save_recipe r' d).
Proof.
  unfold times_ok, save_recipe. simpl. intros Hd Hin Hp Hc.
  rewrite List.Forall_forall in *. intros x Hx. apply in_map_iff in Hx as [y [<- Hy]].
  destruct (String.eqb (r_id y) (r_id r')).
  - rewrite Hp, Hc. exact (Hd r Hin).
  - exact (Hd y Hy).
Qed.

Lemma schema_valid_times (b : recipe) :
  schema_valid b = true -> (0 <= prepTime b)%Q /\ (0 <= cookTime b)%Q.
Proof.
  unfold schema_valid. intros H. repeat rewrite andb_true_iff in H.
  split; apply Qle_bool_iff; tauto.
Qed.

Lemma times_ok_step (d d' : db) :
  catalog_step any_body d d' -> times_ok d -> times_ok d'.
Proof.
  intros Hs Hd. destruct Hs as [d body uid id _ _|d p uid v now|d p uid t now|d p uid|d p uid].
  - unfold create. destruct (body_valid body); simpl; [|exact Hd].
    destruct (schema_valid (new_recipe body uid id)) eqn:Hv; simpl; [|exact Hd].
    unfold times_ok in *. simpl. apply Forall_app. split; [exact Hd|].
    constructor; [exact (schema_valid_times _ Hv) | constructor].
  - unfold rate. destruct ((1 <=? v) && (v <=? 5)); simpl; [|exact Hd].
    destruct (cast_oid p) as [id|]; [|exact Hd].
    destruct (find_recipe id (recipes d)) as [r|] eqn:Hf; [|exact Hd].
    destruct (schema_valid _); [|exact Hd].
    simpl. apply (times_ok_save d r); [exact Hd | exact (proj1 (find_recipe_In _ _ _ Hf)) | reflexivity | reflexivity].
  - unfold comment_on. destruct (String.eqb t ""); [exact Hd|].
    destruct (cast_oid p) as [id|]; [|exact Hd].
    destruct (find_recipe id (recipes d)) as [r|] eqn:Hf; [|exact Hd].
    destruct (schema_valid _); [|exact Hd].
    simpl. apply (times_ok_save d r); [exact Hd | exact (proj1 (find_recipe_In _ _ _ Hf)) | reflexivity | reflexivity].
  - unfold times_ok. rewrite favorite_add_recipes. exact Hd.
  - unfold times_ok. rewrite favorite_remove_recipes. exact Hd.
Qed.

(** Starting from an empty database, the [totalTime] virtual of every
    stored recipe is non-negative in every state the requests reach. *)
Theorem totalTime_nonneg_reachable (d : db) :
  reachable any_body empty_db d -> Forall (fun r => (0 <= totalTime r)%Q) (recipes d).
Proof.
  intros Hr.
  assert (Ht : times_ok d).
  { remember empty_db as d0 eqn:E.
    assert (H0 : times_ok d0) by (subst; constructor).
    clear E. induction Hr as [d|d1 d2 d3 Hs _ IH]; [exact H0|].
    exact (IH (times_ok_step d1 d2 Hs H0)). }
  unfold times_ok in Ht. rewrite List.Forall_forall in *. intros r Hin.
  destruct (Ht r Hin) as [Hp Hc]. unfold totalTime.
  exact (Qplus_le_compat 0 _ 0 _ Hp Hc).
Qed.

Lemma totalTime_nonneg_reachable_witness :
  Forall (fun r => (0 <= totalTime r)%Q) (recipes d_dup).
Proof.
  apply totalTime_nonneg_reachable. apply rtc_once. unfold d_dup.
  apply step_create; [exact I | simpl; tauto].
Defined.

(* ------------------------------------------------------------------ *)
(** ** Repeated requests, long comments, the ingredients parameter *)

(** After a successful [POST /:id/favorite], the same request again is
    refused with 400 and changes nothing. *)
Theorem favorite_add_twice (d : db) (p uid : string) :
  succeeded (fst (favorite_add d p uid)) = true ->
  favorite_add (snd (favorite_add d p uid)) p uid =
    (BadRequest400 "Recipe already in favorites", snd (favorite_add d p uid)).
Proof.
  intros Hs. pose proof Hs as Hs'. unfold favorite_add in Hs'.
  destruct (cast_oid p) as [id|] eqn:Hc; [|discriminate].
  destruct (find_recipe id (recipes d)) as [r|] eqn:Hf; [|discriminate].
  destruct (users d !! uid) as [u|] eqn:Hu; [|discriminate].
  destruct (member (r_id r) (favoriteRecipes u)) eqn:Hm; [discriminate|].
  assert (E : favorite_add d p uid = (Ok200 "Recipe added to favorites",
            save_user uid (mkUser (u_id u) (favoriteRecipes u ++ [r_id r])) d))
    by (unfold favorite_add; now rewrite Hc, Hf, Hu, Hm).
  rewrite E. simpl. unfold favorite_add, save_user. simpl. rewrite Hc, Hf, lookup_insert_eq. simpl.
  replace (member (r_id r) (favoriteRecipes u ++ [r_id r])) with true; [reflexivity|].
  symmetry. unfold member. apply existsb_exists. exists (r_id r).
  split; [apply in_or_app; right; left; reflexivity | apply String.eqb_refl].
Qed.

Lemma favorite_add_twice_witness :
  favorite_add (snd (favorite_add (mkDb popular_store {[ alice := mkUser alice [] ]}) oid1 alice))
    oid1 alice =
  (BadRequest400 "Recipe already in favorites",
   snd (favorite_add (mkDb popular_store {[ alice := mkUser alice [] ]}) oid1 alice)).
Proof.
  apply favorite_add_twice. reflexivity.
Defined.




(** 499 letters followed by 5 spaces, 504 characters in all: the stored
    text is the 499 letters and the answer is 200. *)
Example comment_trailing_spaces_saved :
  fst (comment_on (mkDb popular_store ∅) oid1 alice
         (string_of_list_ascii (repeat "a"%char 499 ++ repeat " "%char 5)) 0)
    = Ok200 (string_of_list_ascii (repeat "a"%char 499)) /\
  String.length (string_of_list_ascii (repeat "a"%char 499 ++ repeat " "%char 5)) = 504%nat.
Proof. split; vm_compute; reflexivity. Qed.

Lemma string_app_cons (c : ascii) (a b : string) :
  (String c a ++ b)%string = String c (a ++ b)%string.
Proof. reflexivity. Qed.

Lemma string_app_nil (a : string) : (a ++ EmptyString)%string = a.
Proof. induction a as [|x a IH]; [reflexivity|]. rewrite string_app_cons. congruence. Qed.

Lemma list_ascii_of_string_app (a b : string) :
  list_ascii_of_string (a ++ b) = list_ascii_of_string a ++ list_ascii_of_string b.
Proof.
  induction a as [|x a IH]; [reflexivity|]. rewrite string_app_cons. simpl. congruence.
Qed.

Lemma split_comma_aux_spec (cur s : string) :
  ~ In ","%char (list_ascii_of_string cur) ->
  split_comma_aux cur s <> [] /\
  String.concat "," (split_comma_aux cur s) = (cur ++ s)%string /\
  (forall x, In x (split_comma_aux cur s) -> ~ In ","%char (list_ascii_of_string x)).
Proof.
  revert cur. induction s as [|c s IH]; intros cur Hcur; simpl.
  - split; [discriminate|]. split; [now rewrite string_app_nil|].
    intros x [<-|[]]. exact Hcur.
  - destruct (Ascii.eqb_spec c ","%char) as [->|Hne].
    + destruct (IH EmptyString (fun H => H)) as [Hne' [Hj Hp]]. split; [discriminate|]. split.
      * destruct (split_comma_aux EmptyString s) as [|y l]; [contradiction|].
        change (String.concat "," (cur :: y :: l)) with
          (cur ++ "," ++ String.concat "," (y :: l))%string.
        rewrite Hj. reflexivity.
      * intros x [<-|Hx]; [exact Hcur | exact (Hp x Hx)].
    + assert (Hc' : ~ In ","%char (list_ascii_of_string (cur ++ String c EmptyString))).
      { rewrite list_ascii_of_string_app. simpl. intros H.
        apply in_app_or in H as [H|[E|[]]]; [exact (Hcur H) | congruence]. }
      destruct (IH _ Hc') as [Hne' [Hj Hp]]. split; [exact Hne'|]. split; [|exact Hp].
      rewrite Hj. clear. induction cur as [|x cur IHc]; [reflexivity|].
      rewrite !string_app_cons. congruence.
Qed.

(** The [ingredients] parameter split at its commas: the pieces hold no
    comma, and joining them back with commas gives the parameter. *)
Theorem split_comma_join (s : string) :
  String.concat "," (split_comma s) = s /\
  (forall x, In x (split_comma s) -> ~ In ","%char (list_ascii_of_string x)).
Proof.
  destruct (split_comma_aux_spec EmptyString s (fun H => H)) as [_ [Hj Hp]].
  split; [exact Hj | exact Hp].
Qed.

(* ------------------------------------------------------------------ *)
(** ** What a listing holds *)

Lemma parse_or_nonzero (o : option string) (d : Z) : d <> 0 -> parse_or o d <> 0.
Proof.
  intros Hd. unfold parse_or. destruct o as [s|]; [|exact Hd].
  destruct (parseInt s) as [n|]; [|exact Hd].
  destruct (Z.eqb_spec n 0); [exact Hd | exact n0].
Qed.

Lemma in_firstn_l {A} (n : nat) (l : list A) (x : A) : In x (firstn n l) -> In x l.
Proof. intros H. rewrite <- (firstn_skipn n l). apply in_or_app. now left. Qed.

Lemma in_skipn_l {A} (n : nat) (l : list A) (x : A) : In x (skipn n l) -> In x l.
Proof. intros H. rewrite <- (firstn_skipn n l). apply in_or_app. now right. Qed.

(** Every recipe [GET /] lists is a stored recipe that matches the
    filter, a page holds at most [|limit|] recipes, and [totalRecipes]
    counts all matches, not only the page. *)
Theorem list_recipes_items (tm : string -> recipe -> bool) (store : list recipe) (q : query)
    (items : list recipe) (pg : pagination) :
  list_recipes tm store q = Listing items pg ->
  (forall r, In r items -> In r store /\ matches tm (build_filter q) r = true) /\
  Z.of_nat (length items) <= Z.abs (parse_or (q_limit q) 12) /\
  totalRecipes pg = Z.of_nat (length (List.filter (matches tm (build_filter q)) store)).
Proof.
  unfold list_recipes. destruct (castable (build_filter q)); simpl; [|discriminate].
  destruct (cursor_skip _ _) as [rest|] eqn:Hs; [|discriminate].
  intros H. injection H as <- <-. unfold cursor_skip in Hs.
  destruct (_ <? 0); [discriminate|]. injection Hs as <-.
  pose proof (parse_or_nonzero (q_limit q) 12 ltac:(lia)) as Hl.
  unfold cursor_limit. rewrite (proj2 (Z.eqb_neq _ 0) Hl). split; [|split; [|reflexivity]].
  - intros r Hr. apply in_firstn_l, in_skipn_l in Hr.
    apply (Permutation_in _ (sort_by_perm newer _)) in Hr.
    now apply filter_In in Hr.
  - pose proof (List.firstn_le_length (Z.to_nat (Z.abs (parse_or (q_limit q) 12)))
      (skipn (Z.to_nat ((parse_or (q_page q) 1 - 1) * parse_or (q_limit q) 12))
        (sort_by newer (List.filter (matches tm (build_filter q)) store)))).
    lia.
Qed.

Lemma list_recipes_items_witness :
  exists items pg, list_recipes no_text store25 (page_query (Some "3") None) = Listing items pg /\
  (forall r, In r items -> In r store25 /\
     matches no_text (build_filter (page_query (Some "3") None)) r = true) /\
  Z.of_nat (length items) <= Z.abs (parse_or (q_limit (page_query (Some "3") None)) 12) /\
  totalRecipes pg =
    Z.of_nat (length (List.filter (matches no_text (build_filter (page_query (Some "3") None))) store25)).
Proof.
  destruct (list_recipes no_text store25 (page_query (Some "3") None)) as [items pg|] eqn:E.
  - exists items, pg. split; [reflexivity|].
    exact (list_recipes_items no_text store25 (page_query (Some "3") None) items pg E).
  - vm_compute in E. discriminate.
Defined.
